(** * Health Insights / HealthAI: session flow, mock API and questionnaire

    A shallow embedding of the TypeScript sources of the repository:

    - [Js]: the JavaScript primitives the sources rely on (truthiness of a
      string, [String.prototype.trim], numbers with [NaN]);
    - [Api]: the mock API service ([src/services/api.ts]) with its
      module-level store, the shared [mockConversation] object and the
      replies scheduled with [setTimeout];
    - [QuestionnaireApi]: the static questionnaire
      ([src/api/questionnaireApi.ts]);
    - [PatientChatPage]: the patient chat page as a transition system over
      its React state;
    - [ApiRuns], [AuthContext], [App], [ChatPage], [WelcomePage],
      [DashboardPage], [SummaryPage]: runs of the service, the reducer of
      the authentication context, the routes and the other pages.

    The adaptive question picker is not among the TypeScript sources; module
    [Core] models it from the specification. *)

From Stdlib Require Import Ascii ZArith QArith Qround Lia.
From stdpp Require Import base option list strings gmap pretty.

Local Open Scope Z_scope.

(* ===================================================================== *)
(** ** JavaScript string primitives *)
(* ===================================================================== *)

Module Js.

(** A JavaScript string is kept as the bytes of its UTF-8 form, which is
    also what a string literal of this file holds; a byte on its own that
    is no character of that form (160, say) stands for nothing.  A string
    with a lone surrogate has no such form and is left out.

    [trim] removes white space and line terminators from both ends: the
    code points 9 to 13 and 32, U+00A0, U+1680, U+2000 to U+200A, U+2028,
    U+2029, U+202F, U+205F, U+3000 and U+FEFF.  In UTF-8 these take one,
    two or three bytes. *)

(** TAB, LF, VT, FF, CR, SPACE. *)
Definition isWhiteSpace1 (c : ascii) : bool :=
  let n := nat_of_ascii c in
  ((9 <=? n)%nat && (n <=? 13)%nat) || (n =? 32)%nat.

(** U+00A0 (no-break space): C2 A0. *)
Definition isWhiteSpace2 (c1 c2 : ascii) : bool :=
  (nat_of_ascii c1 =? 194)%nat && (nat_of_ascii c2 =? 160)%nat.

(** U+1680: E1 9A 80.  U+2000 to U+200A: E2 80 80 to E2 80 8A.  U+2028,
    U+2029 and U+202F: E2 80 A8, E2 80 A9 and E2 80 AF.  U+205F: E2 81 9F.
    U+3000: E3 80 80.  U+FEFF: EF BB BF. *)
Definition isWhiteSpace3 (c1 c2 c3 : ascii) : bool :=
  let n1 := nat_of_ascii c1 in
  let n2 := nat_of_ascii c2 in
  let n3 := nat_of_ascii c3 in
  ((n1 =? 225) && (n2 =? 154) && (n3 =? 128))%nat ||
  ((n1 =? 226) && (n2 =? 128) &&
   (((128 <=? n3) && (n3 <=? 138)) || (n3 =? 168) || (n3 =? 169) || (n3 =? 175)))%nat ||
  ((n1 =? 226) && (n2 =? 129) && (n3 =? 159))%nat ||
  ((n1 =? 227) && (n2 =? 128) && (n3 =? 128))%nat ||
  ((n1 =? 239) && (n2 =? 187) && (n3 =? 191))%nat.

(** The string without the white space character it starts with; [None]
    when it starts with something else or is empty. *)
Definition isWhiteSpace (s : string) : option string :=
  match s with
  | EmptyString => None
  | String c1 s1 =>
      if isWhiteSpace1 c1 then Some s1
      else
        match s1 with
        | EmptyString => None
        | String c2 s2 =>
            if isWhiteSpace2 c1 c2 then Some s2
            else
              match s2 with
              | EmptyString => None
              | String c3 s3 => if isWhiteSpace3 c1 c2 c3 then Some s3 else None
              end
        end
  end.

Fixpoint trimStart (s : string) : string :=
  match s with
  | EmptyString => EmptyString
  | String c1 s1 =>
      if isWhiteSpace1 c1 then trimStart s1
      else
        match s1 with
        | EmptyString => s
        | String c2 s2 =>
            if isWhiteSpace2 c1 c2 then trimStart s2
            else
              match s2 with
              | EmptyString => s
              | String c3 s3 => if isWhiteSpace3 c1 c2 c3 then trimStart s3 else s
              end
        end
  end.

(** A string of white space only, the empty string included. *)
Fixpoint blank (s : string) : bool :=
  match s with
  | EmptyString => true
  | String c1 s1 =>
      if isWhiteSpace1 c1 then blank s1
      else
        match s1 with
        | EmptyString => false
        | String c2 s2 =>
            if isWhiteSpace2 c1 c2 then blank s2
            else
              match s2 with
              | EmptyString => false
              | String c3 s3 => if isWhiteSpace3 c1 c2 c3 then blank s3 else false
              end
        end
  end.

(** [trimEnd] cuts the string where what follows is white space only.  No
    white space character starts with a byte that continues a character, so
    the cut never falls inside one. *)
Fixpoint trimEnd (s : string) : string :=
  match s with
  | EmptyString => EmptyString
  | String c s' => if blank s then EmptyString else String c (trimEnd s')
  end.

Definition trim (s : string) : string := trimEnd (trimStart s).

(** The characters used in the examples. *)
Definition noBreakSpace : string := String (ascii_of_nat 194) (String (ascii_of_nat 160) "").

Definition ideographicSpace : string :=
  String (ascii_of_nat 227) (String (ascii_of_nat 128) (String (ascii_of_nat 128) "")).

Definition aGrave : string := String (ascii_of_nat 195) (String (ascii_of_nat 160) "").

(** [!s] for a string [s]: only the empty string is falsy. *)
Definition falsy (s : string) : bool :=
  match s with
  | EmptyString => true
  | String _ _ => false
  end.

(** A JavaScript number as far as the sources need it: [NaN] or a rational. *)
Inductive number : Type :=
  | NaN
  | Num (q : Q).

End Js.

(* ===================================================================== *)
(** ** The mock API service: [src/services/api.ts] and [src/types/index.ts] *)
(* ===================================================================== *)

Module Api.

Import Js.

(** *** Types ([types/index.ts]) *)

Record User : Type := mkUser {
  user_id : string;
  user_name : string;
  user_dateOfBirth : string;
  user_email : option string;
  user_avatar : option string
}.

Inductive Gender : Type := male | female | other.
Inductive Level : Type := low | moderate | high.

Record Patient : Type := mkPatient {
  id : string;
  name : string;
  dateOfBirth : string;
  email : option string;
  avatar : option string;
  age : number;
  gender : Gender;
  location : string;
  height : string;
  weight : string;
  bmi : number;
  bloodType : string;
  activityLevel : Level;
  dietaryPreferences : string;
  sleepHours : string;
  stressLevel : Level;
  allergies : list string;
  chronicConditions : list string;
  medications : list string
}.

Inductive Sender : Type := user | ai.
Inductive MessageType : Type := text | image | file.

Record Metadata : Type := mkMetadata {
  emotion : option string;
  confidence : option number;
  suggestedActions : option (list string)
}.

(** [timestamp] is a [Date], kept as its epoch milliseconds. *)
Record ChatMessage : Type := mkChatMessage {
  msg_id : string;
  sender : Sender;
  content : string;
  timestamp : Z;
  type : MessageType;
  metadata : option Metadata
}.

Inductive ConversationStatus : Type := conv_active | conv_completed | conv_archived.

Record Conversation : Type := mkConversation {
  conv_id : string;
  patientId : string;
  messages : list ChatMessage;
  summary : string;
  status : ConversationStatus;
  createdAt : Z;
  updatedAt : Z
}.

Inductive AlertType : Type := health | engagement | system.
Inductive Severity : Type := sev_low | sev_medium | sev_high | sev_critical.
Inductive AlertStatus : Type := active | acknowledged | resolved.

Record Alert : Type := mkAlert {
  alert_id : string;
  alert_patientId : string;
  alert_type : AlertType;
  severity : Severity;
  alert_message : string;
  alert_timestamp : Z;
  alert_status : AlertStatus
}.

Record ApiResponse (T : Type) : Type := mkApiResponse {
  success : bool;
  data : option T;
  error : option string;
  message : option string
}.
Arguments mkApiResponse {T} _ _ _ _.
Arguments success {T} _.
Arguments data {T} _.
Arguments error {T} _.
Arguments message {T} _.

Record LoginForm : Type := mkLoginForm {
  form_name : string;
  form_dateOfBirth : string
}.

Record HealthForm : Type := mkHealthForm {
  form_height : string;
  form_weight : string;
  form_bloodType : string;
  form_activityLevel : Level;
  form_dietaryPreferences : string;
  form_sleepHours : string;
  form_stressLevel : Level;
  form_allergies : list string;
  form_chronicConditions : list string;
  form_medications : list string
}.

(** *** Mock data *)

Definition mockUsers : list User :=
  [ mkUser "1" "John Doe" "1990-05-15" None
      (Some "https://images.unsplash.com/photo-1472099645785-5658abf4ff4e?w=150&h=150&fit=crop&crop=face") ].

Definition mockPatient : Patient := {|
  id := "1";
  name := "Sophia Carter";
  dateOfBirth := "1993-05-15";
  email := None;
  avatar := None;
  age := Num 30;
  gender := female;
  location := "San Francisco, CA";
  height := "5'6" +:+ String (ascii_of_nat 34) "";
  weight := "135 lbs";
  bmi := Num (45 # 2);
  bloodType := "O+";
  activityLevel := moderate;
  dietaryPreferences := "Vegetarian";
  sleepHours := "7-8 hours";
  stressLevel := low;
  allergies := [];
  chronicConditions := [];
  medications := []
|}.

(** The five messages of [mockConversation]; [t0] is the clock reading
    when the module is loaded. *)
Definition mockMessages (t0 : Z) : list ChatMessage :=
  [ mkChatMessage "1" ai "Hello, how can I assist you today?" (t0 - 300000) text None;
    mkChatMessage "2" user
      "I've been experiencing some fatigue lately and wanted to discuss it."
      (t0 - 240000) text None;
    mkChatMessage "3" ai
      "I understand. Let's start by gathering some information. Can you describe the nature of your fatigue? Is it constant, or does it come and go?"
      (t0 - 180000) text None;
    mkChatMessage "4" user
      "It's been pretty constant for the past few weeks, especially in the afternoons."
      (t0 - 120000) text None;
    mkChatMessage "5" ai
      "Okay. Have you noticed any other symptoms, such as changes in your sleep, appetite, or mood?"
      (t0 - 60000) text None ].

Definition mockConversation (t0 : Z) : Conversation := {|
  conv_id := "1";
  patientId := "1";
  messages := mockMessages t0;
  summary := "Sarah has been experiencing constant fatigue for the past few weeks, particularly in the afternoons. No other symptoms reported yet.";
  status := conv_active;
  createdAt := t0 - 300000;
  updatedAt := t0 - 60000
|}.

(** *** The store

    [currentUser], [currentPatient], [conversations] and [alerts] are the
    module-level variables.  Conversations are objects that the code mutates
    in place and shares between [conversations] and the constant
    [mockConversation], so they live in [objects] and are named by their
    index there; [mockConversationRef] is the object of the constant.
    [timers] holds the callbacks registered with [setTimeout] that have not
    run yet. *)

Record Timer : Type := mkTimer {
  timer_conversation : nat;
  timer_userMessage : string
}.

Record Store : Type := mkStore {
  currentUser : option User;
  currentPatient : option Patient;
  conversations : list nat;
  alerts : list Alert;
  objects : list Conversation;
  timers : list Timer
}.

Definition mockConversationRef : nat := 0%nat.

(** The store when the module has been loaded at time [t0]. *)
Definition initialStore (t0 : Z) : Store := {|
  currentUser := None;
  currentPatient := None;
  conversations := [];
  alerts := [];
  objects := [mockConversation t0];
  timers := []
|}.

(** *** Authentication *)

Definition loginAvatar : string :=
  "https://lh3.googleusercontent.com/aida-public/AB6AXuCkrmbCLea9oQATBsDwX15rlQDA6AzaF1N0u-n9oqgStMt74PYek3tBQHd85TUXsB2U5RV6P7Cn7GIlRgwo4UNhkGE-HO_ThwagyDgoDWPr5zGkDDCICl4Lu8UwitfOi4Pl9RiTYaijDBMR-kvcPOqqpP_L8ol1tSb2Y4O13IyTCknPi6BUf_csBGtyRNegXtwIr_C0JwzZGVpnNecfMb3u4GNTfhhqbX3pi0MvO9vJZ4Nm5mZ63Wwcq_RtbJbzPhdZ_IH06umKcRoH".

(** [365.25 * 24 * 60 * 60 * 1000] *)
Definition msPerYear : Z := 31557600000.

(** [Math.floor((Date.now() - birthDate.getTime()) / msPerYear)], where
    [getTime] is [None] for an invalid date (the result is then [NaN]).  For
    the dates of birth of living people the floating-point quotient has the
    floor of the exact one. *)
Definition ageAt (now : Z) (getTime : option Z) : number :=
  match getTime with
  | Some birth => Num (inject_Z ((now - birth) / msPerYear))
  | None => NaN
  end.

(** [{ ...mockPatient, ...user, age }]: the keys of [u] override those of
    [p]; an optional key that [u] does not have leaves the one of [p]. *)
Definition spreadUser (p : Patient) (u : User) (a : number) : Patient := {|
  id := user_id u;
  name := user_name u;
  dateOfBirth := user_dateOfBirth u;
  email := match user_email u with Some e => Some e | None => email p end;
  avatar := match user_avatar u with Some e => Some e | None => avatar p end;
  age := a;
  gender := gender p;
  location := location p;
  height := height p;
  weight := weight p;
  bmi := bmi p;
  bloodType := bloodType p;
  activityLevel := activityLevel p;
  dietaryPreferences := dietaryPreferences p;
  sleepHours := sleepHours p;
  stressLevel := stressLevel p;
  allergies := allergies p;
  chronicConditions := chronicConditions p;
  medications := medications p
|}.

Section Login.

(** [new Date(s).getTime()] of the JavaScript runtime; [None] for an invalid
    date. *)
Variable Date_getTime : string -> option Z.

Definition login (now : Z) (credentials : LoginForm) (st : Store)
  : Store * ApiResponse User :=
  if Js.falsy (form_name credentials) || Js.falsy (form_dateOfBirth credentials) then
    (st, mkApiResponse false None (Some "Name and date of birth are required") None)
  else
    let age := ageAt now (Date_getTime (form_dateOfBirth credentials)) in
    let user := {|
      user_id := "1";
      user_name := form_name credentials;
      user_dateOfBirth := form_dateOfBirth credentials;
      user_email := None;
      user_avatar := Some loginAvatar
    |} in
    ({| currentUser := Some user;
        currentPatient := Some (spreadUser mockPatient user age);
        conversations := conversations st;
        alerts := alerts st;
        objects := objects st;
        timers := timers st |},
     mkApiResponse true (Some user) None (Some "Login successful")).

End Login.

Definition logout (st : Store) : Store * ApiResponse unit :=
  ({| currentUser := None;
      currentPatient := None;
      conversations := conversations st;
      alerts := alerts st;
      objects := objects st;
      timers := timers st |},
   mkApiResponse true None None None).

Definition getCurrentPatient (st : Store) : ApiResponse Patient :=
  match currentPatient st with
  | None => mkApiResponse false None (Some "No patient data available") None
  | Some p => mkApiResponse true (Some p) None None
  end.

(** [{ ...currentPatient, ...healthData }] *)
Definition spreadHealth (p : Patient) (h : HealthForm) : Patient := {|
  id := id p;
  name := name p;
  dateOfBirth := dateOfBirth p;
  email := email p;
  avatar := avatar p;
  age := age p;
  gender := gender p;
  location := location p;
  height := form_height h;
  weight := form_weight h;
  bmi := bmi p;
  bloodType := form_bloodType h;
  activityLevel := form_activityLevel h;
  dietaryPreferences := form_dietaryPreferences h;
  sleepHours := form_sleepHours h;
  stressLevel := form_stressLevel h;
  allergies := form_allergies h;
  chronicConditions := form_chronicConditions h;
  medications := form_medications h
|}.

Definition updatePatientHealthData (healthData : HealthForm) (st : Store)
  : Store * ApiResponse Patient :=
  match currentPatient st with
  | None => (st, mkApiResponse false None (Some "No patient data available") None)
  | Some p =>
      let p' := spreadHealth p healthData in
      ({| currentUser := currentUser st;
          currentPatient := Some p';
          conversations := conversations st;
          alerts := alerts st;
          objects := objects st;
          timers := timers st |},
       mkApiResponse true (Some p') None (Some "Health data updated successfully"))
  end.

(** *** Chat and conversations *)

Definition getConversations (st : Store) : Store * ApiResponse (list nat) :=
  let conversations' :=
  if (length (conversations st) =? 0)%nat then [mockConversationRef]
  else conversations st in
  ({| currentUser := currentUser st;
    currentPatient := currentPatient st;
    conversations := conversations';
    alerts := alerts st;
    objects := objects st;
    timers := timers st |},
   mkApiResponse true (Some conversations') None None).

(** [conversations.find(c => c.id === id) || mockConversation] *)
Definition findConversation (st : Store) (cid : string) : nat :=
  default mockConversationRef
  (List.find
     (fun r => match objects st !! r with
               | Some c => bool_decide (conv_id c = cid)
               | None => false
               end)
     (conversations st)).

Definition getConversation (cid : string) (st : Store) : ApiResponse nat :=
  mkApiResponse true (Some (findConversation st cid)) None None.

(** [conversation.messages.push(m); conversation.updatedAt = new Date()] *)
Definition pushMessage (m : ChatMessage) (now : Z) (c : Conversation) : Conversation := {|
  conv_id := conv_id c;
  patientId := patientId c;
  messages := messages c ++ [m];
  summary := summary c;
  status := status c;
  createdAt := createdAt c;
  updatedAt := now
|}.

(** The eight canned replies of [generateAIResponse]. *)
Definition responses : list string :=
  [ "I understand your concern. Let me help you explore this further.";
  "That's important information. Can you tell me more about when this started?";
  "Thank you for sharing that. How does this affect your daily activities?";
  "I see. Have you noticed any patterns or triggers?";
  "That sounds challenging. What have you tried so far to manage this?";
  "I appreciate you bringing this up. Let's work together to find solutions.";
  "This is valuable information. How would you rate the severity on a scale of 1-10?";
  "I'm here to support you. What would be most helpful for you right now?" ].

(** [responses[Math.floor(Math.random() * responses.length)]]; [random] is the
  value [Math.random()] returns, a number with [0 <= random < 1].  Outside
  that range the index misses the array and the empty string stands for
  [undefined]. *)
Definition generateAIResponse (random : Q) (userMessage : string) : string :=
  nth (Z.to_nat (Qfloor (random * inject_Z (Z.of_nat (length responses)))))
    responses EmptyString.

(** The part of [sendMessage] that runs once its one-second delay is over;
  [now] is the clock reading, used for the id, the timestamp and
  [updatedAt]. *)
Definition sendMessage (now : Z) (conversationId : string) (content : string)
  (st : Store) : Store * ApiResponse ChatMessage :=
  let newMessage := {|
  msg_id := pretty now;
  sender := user;
  content := content;
  timestamp := now;
  type := text;
  metadata := None
  |} in
  let conversation := findConversation st conversationId in
  ({| currentUser := currentUser st;
    currentPatient := currentPatient st;
    conversations := conversations st;
    alerts := alerts st;
    objects := alter (pushMessage newMessage now) conversation (objects st);
    timers := timers st ++ [mkTimer conversation content] |},
   mkApiResponse true (Some newMessage) None None).

(** The callback [sendMessage] registers with [setTimeout]: it runs later, at
  clock reading [now], with [random] the value of [Math.random()]. *)
Definition aiResponseOf (now : Z) (random : Q) (t : Timer) : ChatMessage := {|
  msg_id := pretty (now + 1);
  sender := ai;
  content := generateAIResponse random (timer_userMessage t);
  timestamp := now;
  type := text;
  metadata := None
|}.

(** The oldest pending callback runs; nothing happens when none is pending. *)
Definition runTimer (now : Z) (random : Q) (st : Store) : Store :=
  match timers st with
  | [] => st
  | t :: rest =>
    {| currentUser := currentUser st;
       currentPatient := currentPatient st;
       conversations := conversations st;
       alerts := alerts st;
       objects := alter (pushMessage (aiResponseOf now random t) now)
                    (timer_conversation t) (objects st);
       timers := rest |}
  end.



(** *** Alerts *)

Definition fatigueAlert (now : Z) : Alert := {|
  alert_id := "1";
  alert_patientId := "1";
  alert_type := health;
  severity := sev_medium;
  alert_message := "Fatigue pattern detected - consider lifestyle adjustments";
  alert_timestamp := now - 3600000;
  alert_status := active
|}.

Definition getAlerts (now : Z) (st : Store) : Store * ApiResponse (list Alert) :=
  let alerts' :=
  if (length (alerts st) =? 0)%nat then [fatigueAlert now] else alerts st in
  ({| currentUser := currentUser st;
    currentPatient := currentPatient st;
    conversations := conversations st;
    alerts := alerts';
    objects := objects st;
    timers := timers st |},
   mkApiResponse true (Some alerts') None None).

End Api.

(* ===================================================================== *)
(** ** The static questionnaire: [src/api/questionnaireApi.ts] *)
(* ===================================================================== *)

Module QuestionnaireApi.

Inductive QuestionType : Type := text | choice.

Record Question : Type := mkQuestion {
  q_id : string;
  q_text : string;
  q_type : QuestionType;
  q_options : option (list string)
}.

Record Questionnaire : Type := mkQuestionnaire {
  id : string;
  questions : list Question
}.

Definition getQuestionnaire : Questionnaire := {|
  id := "q1";
  questions :=
    [ mkQuestion "q1-1" "How many hours do you sleep per night?" text None;
      mkQuestion "q1-2" "Do you experience headaches?" choice (Some ["Yes"; "No"]);
      mkQuestion "q1-3" "How would you rate your appetite?" choice
        (Some ["Good"; "Average"; "Poor"]) ]
|}.

(** No-op for synthetic data: nothing is stored. *)
Definition saveQuestionnaireAnswers (questionnaireId : string)
  (answers : gmap string string) : unit := tt.

End QuestionnaireApi.

(* ===================================================================== *)
(** ** The patient chat page: [src/pages/PatientChatPage.tsx] *)
(* ===================================================================== *)

Module PatientChatPage.

Inductive Sender : Type := user | bot.

Record Message : Type := mkMessage {
  sender : Sender;
  text : string;
  timestamp : string
}.

(** The state the component works on during one stay on the page, from the
    mount on an empty chat to the move to the summary.  [chat] is the list
    held by the chat context, the next four fields are the [useState] cells,
    and [mounted] is false once the component has navigated to [/summary].
    An [async] handler suspended at its [await] is kept as a pending
    continuation: [pendingReplies] counts the calls of [handleSend] waiting
    for [sendMessage], [pendingSaves] lists the answers of the calls of
    [handleQuestionnaireSubmit] waiting for [saveQuestionnaireAnswers]. *)
Record State : Type := mkState {
  chat : list Message;
  input : string;
  loading : bool;
  showQuestionnaire : bool;
  questionnaireAnswers : option (gmap string string);
  mounted : bool;
  pendingReplies : nat;
  pendingSaves : list (gmap string string)
}.

Definition initialState : State := {|
  chat := [];
  input := "";
  loading := false;
  showQuestionnaire := false;
  questionnaireAnswers := None;
  mounted := true;
  pendingReplies := 0;
  pendingSaves := []
|}.

Definition setChat (c : list Message) (s : State) : State :=
  mkState c (input s) (loading s) (showQuestionnaire s) (questionnaireAnswers s)
    (mounted s) (pendingReplies s) (pendingSaves s).

Definition setInput (v : string) (s : State) : State :=
  mkState (chat s) v (loading s) (showQuestionnaire s) (questionnaireAnswers s)
    (mounted s) (pendingReplies s) (pendingSaves s).

Definition setLoading (b : bool) (s : State) : State :=
  mkState (chat s) (input s) b (showQuestionnaire s) (questionnaireAnswers s)
    (mounted s) (pendingReplies s) (pendingSaves s).

Definition setShowQuestionnaire (b : bool) (s : State) : State :=
  mkState (chat s) (input s) (loading s) b (questionnaireAnswers s)
    (mounted s) (pendingReplies s) (pendingSaves s).

Definition setQuestionnaireAnswers (a : option (gmap string string)) (s : State) : State :=
  mkState (chat s) (input s) (loading s) (showQuestionnaire s) a
    (mounted s) (pendingReplies s) (pendingSaves s).

Definition setMounted (b : bool) (s : State) : State :=
  mkState (chat s) (input s) (loading s) (showQuestionnaire s) (questionnaireAnswers s)
    b (pendingReplies s) (pendingSaves s).

Definition setPendingReplies (n : nat) (s : State) : State :=
  mkState (chat s) (input s) (loading s) (showQuestionnaire s) (questionnaireAnswers s)
    (mounted s) n (pendingSaves s).

Definition setPendingSaves (l : list (gmap string string)) (s : State) : State :=
  mkState (chat s) (input s) (loading s) (showQuestionnaire s) (questionnaireAnswers s)
    (mounted s) (pendingReplies s) l.

(** Modelled from the spec: the chat context ([useChat]) is not among the
    sources.  Conversation turns are append-only (section 3), so [addMessage]
    appends its argument to [chat]; [resetChat] empties it. *)
Definition addMessage (m : Message) (s : State) : State := setChat (chat s ++ [m]) s.

Definition resetChat (s : State) : State := setChat [] s.

(** Modelled from the spec: [sendMessage] of [api/chatApi] is not among the
    sources.  Its result is the agent's reply (section 4.3): a message of
    sender [bot]; the text is whatever the call produced (a fixed synthetic
    sentence, by the test notes of the repository). *)
Definition botMsg (replyText : string) (now : string) : Message :=
  mkMessage bot replyText now.

(** *** The two effects *)

(** On first load, prompt the user. *)
Definition greetingEffect (now : string) (s : State) : State :=
  if (length (chat s) =? 0)%nat then
    addMessage (mkMessage bot "How are you today?" now) s
  else s.

(** After first user message, show questionnaire:
    [chat.length === 2 && chat[1].sender === "user"]. *)
Definition questionnaireGate (c : list Message) : bool :=
  (length c =? 2)%nat &&
  match c !! 1%nat with
  | Some m => match sender m with user => true | bot => false end
  | None => false
  end.

(** One pass of the effects after a render: both read the [chat] of that
    render. *)
Definition effects (now : string) (s : State) : State :=
  let s1 := greetingEffect now s in
  if questionnaireGate (chat s) then setShowQuestionnaire true s1 else s1.

(** The state updates of a pass cause another render and another pass; after
    two passes nothing changes any more.  An unmounted component has no
    effects. *)
Definition settle (now : string) (s : State) : State :=
  if mounted s then effects now (effects now s) else s.

(** *** The two handlers *)

(** How a call of a handler ends: it returns, it is suspended at an [await],
    or it throws. *)
Inductive Completion : Type :=
| Returned
| Awaiting
| Threw.

(** [handleSend] up to its [await sendMessage(...)]. *)
Definition handleSend (now : string) (s : State) : State * Completion :=
  if Js.falsy (Js.trim (input s)) then (s, Returned)
  else
    let s1 := addMessage (mkMessage user (input s) now) s in
    let s2 := setLoading true s1 in
    (setPendingReplies (S (pendingReplies s2)) s2, Awaiting).

(** [handleSend] from its [await] on: the promise of [sendMessage] resolved
    with a reply ([Some]) or was rejected ([None]); nothing catches the
    rejection, so the rest of the handler is skipped. *)
Definition handleSendResume (now : string) (reply : option string) (s : State)
  : State * Completion :=
  let s0 := setPendingReplies (pred (pendingReplies s)) s in
  match reply with
  | Some replyText =>
      let s1 := addMessage (botMsg replyText now) s0 in
      let s2 := setInput "" s1 in
      (setLoading false s2, Returned)
  | None => (s0, Threw)
  end.

(** [handleQuestionnaireSubmit] up to its [await saveQuestionnaireAnswers]. *)
Definition handleQuestionnaireSubmit (answers : gmap string string) (s : State)
  : State * Completion :=
  let s1 := setLoading true s in
  (setPendingSaves (pendingSaves s1 ++ [answers]) s1, Awaiting).

(** [handleQuestionnaireSubmit] from its [await] on, for the oldest pending
    call; [navigate("/summary")] unmounts the page. *)
Definition handleQuestionnaireSubmitResume (s : State) : State * Completion :=
  match pendingSaves s with
  | [] => (s, Returned)
  | answers :: rest =>
      let _ := QuestionnaireApi.saveQuestionnaireAnswers "q1" answers in
      let s0 := setPendingSaves rest s in
      let s1 := setQuestionnaireAnswers (Some answers) s0 in
      let s2 := setLoading false s1 in
      let s3 := resetChat s2 in
      (setMounted false s3, Returned)
  end.

(** *** What is rendered *)

Inductive Control : Type :=
| MessageInput
| SendButton
| QuestionnaireForm.

(** [!showQuestionnaire && (...)] and
    [showQuestionnaire && !questionnaireAnswers && (...)]. *)
Definition rendered (s : State) (c : Control) : bool :=
  mounted s &&
  match c with
  | MessageInput | SendButton => negb (showQuestionnaire s)
  | QuestionnaireForm =>
      showQuestionnaire s &&
      match questionnaireAnswers s with None => true | Some _ => false end
  end.

(** [disabled={loading}] *)
Definition disabled (s : State) (c : Control) : bool :=
  match c with
  | MessageInput | SendButton => loading s
  | QuestionnaireForm => false
  end.

Definition usable (s : State) (c : Control) : bool :=
  rendered s c && negb (disabled s c).

(** *** The page as a transition system *)

Inductive Event : Type :=
| Render                                         (* a render and its effects *)
| Change (value : string)                        (* typing in the message input *)
| SendClick                                      (* Send, or Enter in the input *)
| ReplySettled (reply : option string)           (* the promise of sendMessage *)
| QuestionnaireSubmit (answers : gmap string string)
| SaveSettled.                                   (* the promise of saveQuestionnaireAnswers *)

(** One event at clock reading [now]; [None] when the page cannot receive
    it.  The effects run after the handler. *)
Definition step (now : string) (e : Event) (s : State) : option State :=
  match e with
  | Render =>
      if mounted s then Some (settle now s) else None
  | Change v =>
      if usable s MessageInput then Some (settle now (setInput v s)) else None
  | SendClick =>
      if usable s SendButton then Some (settle now (fst (handleSend now s))) else None
  | ReplySettled reply =>
      if (0 <? pendingReplies s)%nat then
        Some (settle now (fst (handleSendResume now reply s)))
      else None
  | QuestionnaireSubmit answers =>
      if usable s QuestionnaireForm then
        Some (settle now (fst (handleQuestionnaireSubmit answers s)))
      else None
  | SaveSettled =>
      match pendingSaves s with
      | [] => None
      | _ :: _ => Some (settle now (fst (handleQuestionnaireSubmitResume s)))
      end
  end.

(** A run: the events with their clock readings, oldest first.  The result
    lists the states after each event. *)
Fixpoint run (events : list (string * Event)) (s : State) : option (list State) :=
  match events with
  | [] => Some []
  | (now, e) :: rest =>
      match step now e s with
      | None => None
      | Some s' =>
          match run rest s' with
          | None => None
          | Some l => Some (s' :: l)
          end
      end
  end.

Inductive reachable : State -> Prop :=
| reachable_initial : reachable initialState
| reachable_step now e s s' :
    reachable s -> step now e s = Some s' -> reachable s'.

(** *** Phases of a session *)

(** Modelled from the spec: the sources have no phase variable; these are the
    phases of section 4.5. *)
Inductive Phase : Type :=
| INIT
| COMPANION
| QUESTIONNAIRE
| ANALYSIS
| COMPLETE
| ABORTED.

#[global] Instance Phase_eq_dec : EqDecision Phase.
Proof. solve_decision. Defined.

(** The phase a state of the page is in.  INIT: the chat is empty, the
    greeting effect has not run yet.  COMPANION: the greeting is there and
    the message input is rendered ([!showQuestionnaire]).  QUESTIONNAIRE: the
    questionnaire is rendered.  ANALYSIS: answers have been handed to
    [handleQuestionnaireSubmit], which is suspended at
    [await saveQuestionnaireAnswers]; nothing is asked of the patient.
    COMPLETE: the page has moved on with [navigate("/summary")].  No state of
    the page is ABORTED. *)
Definition phaseOf (s : State) : Phase :=
  if negb (mounted s) then COMPLETE
  else
    match pendingSaves s with
    | _ :: _ => ANALYSIS
    | [] =>
        if showQuestionnaire s then QUESTIONNAIRE
        else match chat s with
             | [] => INIT
             | _ :: _ => COMPANION
             end
    end.

Definition phases : list Phase := [INIT; COMPANION; QUESTIONNAIRE; ANALYSIS; COMPLETE].

(** The phases visited: the phases of the states in order, a phase that
    lasts over several states counted once. *)
Fixpoint visited (current : Phase) (l : list State) : list Phase :=
  match l with
  | [] => []
  | s :: l' =>
      if decide (phaseOf s = current) then visited current l'
      else phaseOf s :: visited (phaseOf s) l'
  end.

(** The phases from [p] on, in the order of [phases]. *)
Definition phasesFrom (p : Phase) : list Phase :=
  match p with
  | INIT => [INIT; COMPANION; QUESTIONNAIRE; ANALYSIS; COMPLETE]
  | COMPANION => [COMPANION; QUESTIONNAIRE; ANALYSIS; COMPLETE]
  | QUESTIONNAIRE => [QUESTIONNAIRE; ANALYSIS; COMPLETE]
  | ANALYSIS => [ANALYSIS; COMPLETE]
  | COMPLETE => [COMPLETE]
  | ABORTED => [ABORTED]
  end.

Definition nextPhase (p : Phase) : option Phase :=
  match p with
  | INIT => Some COMPANION
  | COMPANION => Some QUESTIONNAIRE
  | QUESTIONNAIRE => Some ANALYSIS
  | ANALYSIS => Some COMPLETE
  | COMPLETE | ABORTED => None
  end.

(** Modelled from the spec: section 4.3 speaks of a substantive utterance,
    "non-empty, non-greeting", without saying what a greeting is; a bare
    salutation is taken to be one. *)
Definition isGreeting (utterance : string) : bool :=
  bool_decide (Js.trim utterance ∈ ["hi"; "Hi"; "hello"; "Hello"; "hey"; "Hey"]).

Definition substantive (utterance : string) : bool :=
  negb (Js.falsy (Js.trim utterance)) && negb (isGreeting utterance).

(** The messages of the patient in a chat. *)
Definition isPatient (m : Message) : bool :=
  match sender m with
  | user => true
  | bot => false
  end.

(** What holds of every state the page reaches.  While the page is mounted
    no answers are stored; before the questionnaire is shown nothing is
    pending and the chat is empty (with an empty input) or holds just the
    greeting; once it is shown the second message of the chat is a non-blank
    message of the patient. *)
Definition invariant (s : State) : Prop :=
  mounted s = true ->
  questionnaireAnswers s = None /\
  if showQuestionnaire s then
    exists g u rest,
      chat s = g :: u :: rest /\ sender u = user /\ Js.trim (text u) <> ""
  else
    pendingReplies s = 0%nat /\ pendingSaves s = [] /\ loading s = false /\
    ((chat s = [] /\ input s = "") \/
     exists now, chat s = [mkMessage bot "How are you today?" now]).

(** What makes an event possible, read off a hypothesis [step now e s = Some s']. *)
Ltac enabled H :=
  simpl in H; unfold usable, rendered, disabled in H; simpl in H.

End PatientChatPage.

(* ===================================================================== *)
(** ** The question adapter, from the specification *)
(* ===================================================================== *)

Module Core.

Local Open Scope Q_scope.

(** Modelled from the spec: the emotion classifier is not among the sources;
    this is its closed label set (section 4.1) and the pair it returns. *)
Inductive Label : Type := calm | anxious | frustrated | sad | positive | neutral.

Record Emotion : Type := mkEmotion {
  label : Label;
  confidence : Q
}.

(** Modelled from the spec: an answer is free text or one of the enumerated
    options (section 9). *)
Inductive Answer : Type :=
| freeText (s : string)
| choice (o : string).

Definition answerText (a : Answer) : string :=
  match a with
  | freeText s => s
  | choice o => o
  end.

Inductive AnswerType : Type :=
| FreeText
| SingleChoice (options : list string).

(** Modelled from the spec: a question definition of a template (section 3),
    no template being among the sources; [simpler] is the
    shorter variant of the prompt when the template provides one. *)
Record QuestionDef : Type := mkQuestionDef {
  qid : string;
  prompt : string;
  answerType : AnswerType;
  tag : string;
  simpler : option string
}.

(** Modelled from the spec: a conditional follow-up (section 4.2), unlocked
    by the answer [unlockAnswer] to a
    question tagged [unlockTag]. *)
Record FollowUp : Type := mkFollowUp {
  unlockTag : string;
  unlockAnswer : string;
  priority : nat;
  followUp : QuestionDef
}.

Record QuestionnaireTemplate : Type := mkTemplate {
  base : list QuestionDef;
  followUps : list FollowUp
}.

(** Modelled from the spec: the configuration options of section 6 that the
    adapter and the risk engine read, with their defaults. *)
Record Config : Type := mkConfig {
  maxQuestionsPerSession : nat;
  riskAlertThreshold : Q
}.

Definition defaultConfig : Config := {|
  maxQuestionsPerSession := 5;
  riskAlertThreshold := 6 # 10
|}.

(** *** Question Bank & Adapter (section 4.2) *)

(** Modelled from the spec: the tie-break of section 4.2.  Lower priority
    number first; equal priority keeps declaration order. *)
Fixpoint insertByPriority (f : FollowUp) (l : list FollowUp) : list FollowUp :=
  match l with
  | [] => [f]
  | g :: l' =>
      if (priority g <=? priority f)%nat then g :: insertByPriority f l'
      else f :: l
  end.

Definition sortByPriority (l : list FollowUp) : list FollowUp :=
  foldl (fun acc f => insertByPriority f acc) [] l.

Definition answerTo (answeredSoFar : list (string * Answer)) (q : string) : option Answer :=
  snd <$> List.find (fun p => bool_decide (fst p = q)) answeredSoFar.

Definition unlocks (q : QuestionDef) (a : Answer) (f : FollowUp) : bool :=
  bool_decide (unlockTag f = tag q) && bool_decide (unlockAnswer f = answerText a).

(** Modelled from the spec: the order of questions of section 4.2.  The
    base ordering, each follow-up inserted immediately after the
    question whose answer unlocked it. *)
Definition plan (t : QuestionnaireTemplate) (answeredSoFar : list (string * Answer))
  : list QuestionDef :=
  flat_map
    (fun q =>
       q :: match answerTo answeredSoFar (qid q) with
            | Some a => map followUp (sortByPriority (filter (fun f => unlocks q a f = true) (followUps t)))
            | None => []
            end)
    (base t).

(** Modelled from the spec: the substitution of section 4.2.  Anxious or sad
    with confidence at least 0.6: the simpler variant, when
    there is one. *)
Definition prefersSimpler (e : Emotion) : bool :=
  match label e with
  | anxious | sad => Qle_bool (6 # 10) (confidence e)
  | _ => false
  end.

Definition phrase (e : Emotion) (q : QuestionDef) : QuestionDef :=
  if prefersSimpler e then
    match simpler q with
    | Some p => mkQuestionDef (qid q) p (answerType q) (tag q) (simpler q)
    | None => q
    end
  else q.

(** Modelled from the spec: the Question Bank & Adapter is not among the
    sources.  [nextQuestion] returns [None] once the maximum question count
    is reached or the base sequence with all unlocked follow-ups is
    exhausted; otherwise the first question of the plan that has no answer
    yet, phrased for the current emotion. *)
Definition nextQuestion (c : Config) (t : QuestionnaireTemplate)
  (answeredSoFar : list (string * Answer)) (currentEmotion : Emotion)
  : option QuestionDef :=
  if (maxQuestionsPerSession c <=? length answeredSoFar)%nat then None
  else
    phrase currentEmotion <$>
      List.find
        (fun q => match answerTo answeredSoFar (qid q) with
                  | Some _ => false
                  | None => true
                  end)
        (plan t answeredSoFar).

(** *** The questionnaire phase of the Turn Processor (section 4.3) *)

Record PROResponse : Type := mkPROResponse {
  pro_questionId : string;
  pro_answer : Answer
}.

(** Modelled from the spec: the state of the questionnaire phase.  [asked]
    is the question most recently asked; [None] signals
    "questionnaire complete". *)
Record Questioning : Type := mkQuestioning {
  proResponses : list PROResponse;
  asked : option QuestionDef
}.

Definition answered (rs : list PROResponse) : list (string * Answer) :=
  map (fun r => (pro_questionId r, pro_answer r)) rs.

(** Modelled from the spec: entering the phase, the first question is
    asked. *)
Definition startQuestioning (c : Config) (t : QuestionnaireTemplate) (e : Emotion)
  : Questioning :=
  mkQuestioning [] (nextQuestion c t [] e).

(** Modelled from the spec: the Turn Processor is not among the sources.  A
    turn of the questionnaire phase records a PROResponse keyed to the
    question most recently asked and asks the adapter for the next one; once
    the questionnaire is complete nothing more is recorded. *)
Definition processAnswer (c : Config) (t : QuestionnaireTemplate)
  (turn : Answer * Emotion) (s : Questioning) : Questioning :=
  match asked s with
  | None => s
  | Some q =>
      let rs := proResponses s ++ [mkPROResponse (qid q) (fst turn)] in
      mkQuestioning rs (nextQuestion c t (answered rs) (snd turn))
  end.

Definition questionnaire (c : Config) (t : QuestionnaireTemplate) (e : Emotion)
  (turns : list (Answer * Emotion)) : Questioning :=
  foldl (fun s turn => processAnswer c t turn s) (startQuestioning c t e) turns.

(** The static questionnaire of the front end as a template: its questions
    in order, without tags, variants or follow-ups. *)
Definition templateOf (q : QuestionnaireApi.Questionnaire) : QuestionnaireTemplate := {|
  base :=
    map (fun x =>
           mkQuestionDef (QuestionnaireApi.q_id x) (QuestionnaireApi.q_text x)
             match QuestionnaireApi.q_options x with
             | Some o => SingleChoice o
             | None => FreeText
             end
             "" None)
        (QuestionnaireApi.questions q);
  followUps := []
|}.

End Core.

(* ===================================================================== *)
(** ** Runs of the mock API service *)
(* ===================================================================== *)

Module ApiRuns.

Import Api.

(** [getHealthMetrics]: the health metrics of [types/index.ts] and the fixed
    record the service returns. *)
Record HealthMetrics : Type := mkHealthMetrics {
  heartRate : Q;
  systolic : Q;
  diastolic : Q;
  sleep : Q;
  steps : Q;
  metrics_weight : Q;
  metrics_bmi : Q;
  temperature : Q;
  oxygenSaturation : Q
}.

Definition mockHealthMetrics : HealthMetrics :=
  mkHealthMetrics 72 120 80 (15 # 2) 8500 135 (45 # 2) (493 # 5) 98.

Definition getHealthMetrics : ApiResponse HealthMetrics :=
  mkApiResponse true (Some mockHealthMetrics) None None.

(** The calls that write to the store, with the clock readings and the
    [Math.random()] value they use. *)
Inductive Op : Type :=
| Login (now : Z) (credentials : LoginForm)
| Logout
| UpdatePatientHealthData (healthData : HealthForm)
| GetConversations
| SendMessage (now : Z) (conversationId content : string)
| Timer (now : Z) (random : Q)
| GetAlerts (now : Z).

Section Runs.

Variable Date_getTime : string -> option Z.

Definition perform (op : Op) (st : Store) : Store :=
  match op with
  | Login now credentials => fst (login Date_getTime now credentials st)
  | Logout => fst (logout st)
  | UpdatePatientHealthData healthData => fst (updatePatientHealthData healthData st)
  | GetConversations => fst (getConversations st)
  | SendMessage now conversationId content =>
      fst (sendMessage now conversationId content st)
  | Timer now random => runTimer now random st
  | GetAlerts now => fst (getAlerts now st)
  end.

(** The calls of a run, oldest first. *)
Definition performAll (ops : list Op) (st : Store) : Store :=
  foldl (fun st op => perform op st) st ops.

End Runs.

(** The store holds one conversation object, the one of [mockConversation];
    [conversations] is empty or holds that object, and every pending reply
    is for it. *)
Definition wellFormed (st : Store) : Prop :=
  (exists c, objects st = [c] /\ conv_id c = "1") /\
  (conversations st = [] \/ conversations st = [mockConversationRef]) /\
  Forall (fun t => timer_conversation t = mockConversationRef) (timers st).

(** The messages of the shared conversation object. *)
Definition sharedMessages (st : Store) : list ChatMessage :=
  match objects st !! mockConversationRef with
  | Some c => messages c
  | None => []
  end.

Definition sentBy (who : Sender) (m : ChatMessage) : bool :=
  match sender m, who with
  | user, user | ai, ai => true
  | _, _ => false
  end.

Definition countSentBy (who : Sender) (ms : list ChatMessage) : nat :=
  length (List.filter (sentBy who) ms).

(** The number of calls of [sendMessage] in a run. *)
Fixpoint sends (ops : list Op) : nat :=
  match ops with
  | [] => 0
  | SendMessage _ _ _ :: rest => S (sends rest)
  | _ :: rest => sends rest
  end.

(** Linear arithmetic over message counts, the counts taken as unknowns. *)
Ltac count_arith :=
  repeat match goal with
         | H : context [countSentBy _ _] |- _ => revert H
         end;
  repeat match goal with
         | |- context [countSentBy ?w ?l] =>
             generalize (countSentBy w l); intro
         end;
  intros; repeat split; lia.

(** The clock reading of the first [getAlerts] of a run. *)
Fixpoint firstGetAlerts (ops : list Op) : option Z :=
  match ops with
  | [] => None
  | GetAlerts now :: _ => Some now
  | _ :: rest => firstGetAlerts rest
  end.

End ApiRuns.

(* ===================================================================== *)
(** ** The authentication context: [src/context/AuthContext.tsx] *)
(* ===================================================================== *)

Module AuthContext.

Record AuthState : Type := mkAuthState {
  user : option Api.User;
  patient : option Api.Patient;
  isAuthenticated : bool;
  isLoading : bool;
  error : option string
}.

Inductive AuthAction : Type :=
| LOGIN_START
| LOGIN_SUCCESS (payload_user : Api.User) (payload_patient : Api.Patient)
| LOGIN_FAILURE (payload : string)
| LOGOUT
| UPDATE_PATIENT (payload : Api.Patient)
| CLEAR_ERROR.

Definition initialState : AuthState := {|
  user := None;
  patient := None;
  isAuthenticated := false;
  isLoading := false;
  error := None
|}.

Definition authReducer (state : AuthState) (action : AuthAction) : AuthState :=
  match action with
  | LOGIN_START =>
      mkAuthState (user state) (patient state) (isAuthenticated state) true None
  | LOGIN_SUCCESS u p =>
      mkAuthState (Some u) (Some p) true false None
  | LOGIN_FAILURE payload =>
      mkAuthState (user state) (patient state) (isAuthenticated state) false (Some payload)
  | LOGOUT => initialState
  | UPDATE_PATIENT p =>
      mkAuthState (user state) (Some p) (isAuthenticated state) (isLoading state)
        (error state)
  | CLEAR_ERROR =>
      mkAuthState (user state) (patient state) (isAuthenticated state) (isLoading state)
        None
  end.

(** The actions dispatched so far, oldest first. *)
Definition dispatchAll (actions : list AuthAction) (state : AuthState) : AuthState :=
  foldl authReducer state actions.

(** [checkAuth], the effect run when the application loads, from the answer
    of [getCurrentPatient] on: with patient data the user is taken to be
    logged in, the user being read off the patient. *)
Definition checkAuth (patientResponse : Api.ApiResponse Api.Patient) (state : AuthState)
  : AuthState :=
  match Api.success patientResponse, Api.data patientResponse with
  | true, Some p =>
      let u := Api.mkUser (Api.id p) (Api.name p) (Api.dateOfBirth p) None (Api.avatar p) in
      authReducer state (LOGIN_SUCCESS u p)
  | _, _ => state
  end.

End AuthContext.

(* ===================================================================== *)
(** ** Routing: [src/App.tsx] *)
(* ===================================================================== *)

Module App.

(** The route the router has matched for the location. *)
Inductive Path : Type :=
| rootPath          (* "/" *)
| dashboardPath     (* "/dashboard" *)
| chatPath          (* "/chat" *)
| otherPath.        (* "*" *)

Inductive Element : Type :=
| welcomePage
| dashboardPage
| chatPage
| loadingScreen
| navigateTo (to : Path).

(** [isAuthenticated] and [isLoading] are the two values the component reads
    from [useAuth()]. *)
Definition ProtectedRoute (isAuthenticated isLoading : bool) (children : Element) : Element :=
  if isLoading then loadingScreen
  else if isAuthenticated then children
  else navigateTo rootPath.

Definition routes (isAuthenticated isLoading : bool) (p : Path) : Element :=
  match p with
  | rootPath => welcomePage
  | dashboardPath => ProtectedRoute isAuthenticated isLoading dashboardPage
  | chatPath => ProtectedRoute isAuthenticated isLoading chatPage
  | otherPath => navigateTo rootPath
  end.

(** What ends up on the screen: a [Navigate] element replaces the location
    and the routes are matched again. *)
Definition screen (isAuthenticated isLoading : bool) (p : Path) : Element :=
  match routes isAuthenticated isLoading p with
  | navigateTo to => routes isAuthenticated isLoading to
  | e => e
  end.

(** [Layout]: the header is rendered for an authenticated user. *)
Definition headerShown (isAuthenticated : bool) : bool := isAuthenticated.

End App.

(* ===================================================================== *)
(** ** The chat page of the service: [src/pages/ChatPage.tsx] *)
(* ===================================================================== *)

Module ChatPage.

Import Api.

(** What the [conversation] state cell holds: the conversation object of the
    service itself, as [getConversations] and [getConversation] hand it out,
    or an object the page has built with a spread. *)
Inductive ConversationValue : Type :=
| Shared (object : nat)
| Copy (c : Conversation).

Record State : Type := mkState {
  conversation : option ConversationValue;
  healthMetrics : option ApiRuns.HealthMetrics;
  newMessage : string;
  isLoading : bool;
  isSending : bool
}.

Definition initialState : State := {|
  conversation := None;
  healthMetrics := None;
  newMessage := "";
  isLoading := true;
  isSending := false
|}.

(** The conversation a value stands for, the shared object being read in the
    store as it is now. *)
Definition read (st : Store) (v : ConversationValue) : option Conversation :=
  match v with
  | Shared object => objects st !! object
  | Copy c => Some c
  end.

(** The messages on the screen: [conversation?.messages]. *)
Definition shownMessages (st : Store) (s : State) : list ChatMessage :=
  match conversation s with
  | Some v =>
      match read st v with
      | Some c => messages c
      | None => []
      end
  | None => []
  end.

(** [fetchData], the effect of the first render. *)
Definition fetchData (s : State) (st : Store) : State * Store :=
  let conversationResponse := getConversations st in
  let metricsResponse := ApiRuns.getHealthMetrics in
  let conversation' :=
    match success (snd conversationResponse), data (snd conversationResponse) with
    | true, Some (first :: _) => Some (Shared first)
    | _, _ => conversation s
    end in
  let healthMetrics' :=
    match success metricsResponse, data metricsResponse with
    | true, Some m => Some m
    | _, _ => healthMetrics s
    end in
  (mkState conversation' healthMetrics' (newMessage s) false (isSending s),
   fst conversationResponse).

(** [handleSendMessage] up to its [await]: the message to send and the id of
    the conversation, or nothing when the guard returns. *)
Definition handleSendMessageBegin (st : Store) (s : State)
  : State * option (string * string) :=
  if Js.falsy (Js.trim (newMessage s)) then (s, None)
  else
    match conversation s with
    | None => (s, None)
    | Some v =>
        match read st v with
        | None => (s, None)
        | Some c =>
            (mkState (conversation s) (healthMetrics s) "" (isLoading s) true,
             Some (newMessage s, conv_id c))
        end
    end.

(** [{ ...prev, messages: [...prev.messages, m], updatedAt: new Date() }] *)
Definition withMessage (m : ChatMessage) (now : Z) (c : Conversation) : Conversation := {|
  conv_id := conv_id c;
  patientId := patientId c;
  messages := messages c ++ [m];
  summary := summary c;
  status := status c;
  createdAt := createdAt c;
  updatedAt := now
|}.

(** [handleSendMessage] from its [await] on, [st] being the store after the
    call: the functional update of [conversation], then the [finally]. *)
Definition handleSendMessageSent (now : Z) (response : ApiResponse ChatMessage)
  (st : Store) (s : State) : State :=
  let conversation' :=
    match success response, data response with
    | true, Some m =>
        match conversation s with
        | Some prev =>
            match read st prev with
            | Some c => Some (Copy (withMessage m now c))
            | None => Some prev
            end
        | None => None
        end
    | _, _ => conversation s
    end in
  mkState conversation' (healthMetrics s) (newMessage s) (isLoading s) false.

(** A whole call of [handleSendMessage] with nothing else happening before
    the service answers at clock reading [now]. *)
Definition handleSendMessage (now : Z) (s : State) (st : Store) : State * Store :=
  match handleSendMessageBegin st s with
  | (s1, None) => (s1, st)
  | (s1, Some (messageToSend, conversationId)) =>
      let r := sendMessage now conversationId messageToSend st in
      (handleSendMessageSent now (snd r) (fst r) s1, fst r)
  end.


(** [disabled={!newMessage.trim() || isSending}] of the Send button. *)
Definition sendDisabled (s : State) : bool :=
  Js.falsy (Js.trim (newMessage s)) || isSending s.

End ChatPage.

(* ===================================================================== *)
(** ** The welcome page: [src/pages/WelcomePage.tsx] *)
(* ===================================================================== *)

Module WelcomePage.

Import Api.

(** The guard of [handleSubmit]: with [true] the handler goes on to log in. *)
Definition submits (formData : LoginForm) : bool :=
  negb (Js.falsy (Js.trim (form_name formData)) || Js.falsy (form_dateOfBirth formData)).

(** [disabled] of the Continue button. *)
Definition submitDisabled (isLoading : bool) (formData : LoginForm) : bool :=
  isLoading || Js.falsy (Js.trim (form_name formData)) || Js.falsy (form_dateOfBirth formData).

End WelcomePage.

(* ===================================================================== *)
(** ** The dashboard and the summary *)
(* ===================================================================== *)

Module DashboardPage.

(** [agent.capabilities.slice(0, 2)] *)
Definition shownCapabilities (capabilities : list string) : list string :=
  take 2 capabilities.

(** The badge [+{agent.capabilities.length - 2}], rendered when
    [agent.capabilities.length > 2]. *)
Definition moreBadge (capabilities : list string) : option nat :=
  if (2 <? length capabilities)%nat then Some (length capabilities - 2)%nat else None.

End DashboardPage.

Module SummaryPage.

(** The chat section: a line per message, headed "You" or "Bot". *)
Definition chatLines (chat : list PatientChatPage.Message) : list (string * string) :=
  map (fun msg =>
         (match PatientChatPage.sender msg with
          | PatientChatPage.user => "You"
          | PatientChatPage.bot => "Bot"
          end,
          PatientChatPage.text msg))
      chat.

End SummaryPage.

(* ===================================================================== *)
(** ** More on the runs of the patient chat page *)
(* ===================================================================== *)

Module PatientChatRuns.

Import PatientChatPage.

Definition fromBot (m : Message) : Prop := sender m = bot.

(** One exchange at most.  While the input is shown the chat holds messages
    of the bot only and no reply is awaited; once the questionnaire is shown
    the chat is the greeting, the message of the patient and what has come
    back for it; after the move to the summary what is left in the chat
    comes from the bot.  A reply is awaited or has arrived, not both. *)
Definition oneExchange (s : State) : Prop :=
  if mounted s then
    if showQuestionnaire s then
      exists g u rest,
        chat s = g :: u :: rest /\ fromBot g /\ sender u = user /\
        Forall fromBot rest /\ (length rest + pendingReplies s <= 1)%nat
    else
      pendingReplies s = 0%nat /\ Forall fromBot (chat s) /\ (length (chat s) <= 1)%nat
  else
    Forall fromBot (chat s) /\ (length (chat s) + pendingReplies s <= 1)%nat.

(** With the questionnaire on the screen the activity monitor is off only
    once the reply has come. *)
Definition repliedWhenIdle (s : State) : Prop :=
  mounted s = true -> showQuestionnaire s = true -> loading s = false ->
  length (chat s) = 3%nat /\ pendingReplies s = 0%nat.

End PatientChatRuns.

(* ===================================================================== *)
(** * Properties *)
(* ===================================================================== *)

(** ** JavaScript primitives *)

Section JsFacts.

Import Js.

Lemma falsy_true_iff (s : string) : Js.falsy s = true <-> s = "".
Proof. destruct s; simpl; split; intros H; try reflexivity; discriminate. Qed.

Lemma falsy_false_iff (s : string) : Js.falsy s = false <-> s <> "".
Proof. destruct s; simpl; split; intros H; try reflexivity; try discriminate; congruence. Qed.

(** One character of white space at the head of the string and what
    [trimStart] and [blank] make of it. *)
Lemma trimStart_step (s : string) :
  trimStart s = match isWhiteSpace s with Some rest => trimStart rest | None => s end.
Proof.
  destruct s as [| c1 [| c2 [| c3 s3]]]; simpl; try reflexivity.
  - destruct (isWhiteSpace1 c1); reflexivity.
  - destruct (isWhiteSpace1 c1); [reflexivity |].
    destruct (isWhiteSpace2 c1 c2); reflexivity.
  - destruct (isWhiteSpace1 c1); [reflexivity |].
    destruct (isWhiteSpace2 c1 c2); [reflexivity |].
    destruct (isWhiteSpace3 c1 c2 c3); reflexivity.
Qed.

Lemma blank_step (s : string) :
  blank s = match isWhiteSpace s with Some rest => blank rest | None => Js.falsy s end.
Proof.
  destruct s as [| c1 [| c2 [| c3 s3]]]; simpl; try reflexivity.
  - destruct (isWhiteSpace1 c1); reflexivity.
  - destruct (isWhiteSpace1 c1); [reflexivity |].
    destruct (isWhiteSpace2 c1 c2); reflexivity.
  - destruct (isWhiteSpace1 c1); [reflexivity |].
    destruct (isWhiteSpace2 c1 c2); [reflexivity |].
    destruct (isWhiteSpace3 c1 c2 c3); reflexivity.
Qed.

Lemma isWhiteSpace_shorter (s rest : string) :
  isWhiteSpace s = Some rest -> (String.length rest < String.length s)%nat.
Proof.
  destruct s as [| c1 [| c2 [| c3 s3]]]; simpl; try discriminate.
  - destruct (isWhiteSpace1 c1); [| discriminate]. intros [= <-]. simpl. lia.
  - destruct (isWhiteSpace1 c1); [intros [= <-]; simpl; lia |].
    destruct (isWhiteSpace2 c1 c2); [| discriminate]. intros [= <-]. simpl. lia.
  - destruct (isWhiteSpace1 c1); [intros [= <-]; simpl; lia |].
    destruct (isWhiteSpace2 c1 c2); [intros [= <-]; simpl; lia |].
    destruct (isWhiteSpace3 c1 c2 c3); [| discriminate]. intros [= <-]. simpl. lia.
Qed.

(** Induction on a string, a character of white space at a time. *)
Lemma whiteSpace_ind (P : string -> Prop) :
  (forall s, (forall rest, isWhiteSpace s = Some rest -> P rest) -> P s) ->
  forall s, P s.
Proof.
  intros Hstep s.
  remember (String.length s) as n eqn:Hn.
  revert s Hn. induction n as [n IH] using lt_wf_ind. intros s ->.
  apply Hstep. intros rest Hrest.
  apply (IH (String.length rest)); [apply isWhiteSpace_shorter; exact Hrest | reflexivity].
Qed.

Lemma trimStart_empty_iff (s : string) : trimStart s = "" <-> blank s = true.
Proof.
  induction s as [s IH] using whiteSpace_ind.
  rewrite trimStart_step, blank_step.
  destruct (isWhiteSpace s) as [rest |] eqn:E.
  - apply IH. reflexivity.
  - symmetry. apply falsy_true_iff.
Qed.

Lemma trimEnd_empty_iff (s : string) : trimEnd s = "" <-> blank s = true.
Proof.
  destruct s as [| c s']; [simpl; tauto |].
  cbn [trimEnd]. destruct (blank (String c s')); split; try reflexivity; discriminate.
Qed.

Lemma blank_trimStart (s : string) : blank (trimStart s) = blank s.
Proof.
  induction s as [s IH] using whiteSpace_ind.
  rewrite trimStart_step, (blank_step s).
  destruct (isWhiteSpace s) as [rest |] eqn:E.
  - apply IH. reflexivity.
  - rewrite blank_step, E. reflexivity.
Qed.

(** [!s.trim()] holds exactly of the strings of white space. *)
Lemma trim_empty_iff (s : string) : Js.falsy (trim s) = true <-> blank s = true.
Proof.
  rewrite falsy_true_iff. unfold trim.
  rewrite trimEnd_empty_iff, blank_trimStart. tauto.
Qed.

(** What [trimStart] leaves does not start with white space. *)
Lemma trimStart_done (s : string) : isWhiteSpace (trimStart s) = None.
Proof.
  induction s as [s IH] using whiteSpace_ind.
  rewrite trimStart_step.
  destruct (isWhiteSpace s) as [rest |] eqn:E; [apply IH; reflexivity | exact E].
Qed.

Lemma isWhiteSpace_app (s rest t : string) :
  isWhiteSpace s = Some rest -> isWhiteSpace (s ++ t) = Some (rest ++ t)%string.
Proof.
  intros H. destruct s as [| c1 s1]; [discriminate |].
  change (String c1 s1 ++ t)%string with (String c1 (s1 ++ t)%string).
  simpl in H |- *.
  destruct (isWhiteSpace1 c1); [injection H as <-; reflexivity |].
  destruct s1 as [| c2 s2]; [discriminate |].
  change (String c2 s2 ++ t)%string with (String c2 (s2 ++ t)%string). cbn iota.
  destruct (isWhiteSpace2 c1 c2); [injection H as <-; reflexivity |].
  destruct s2 as [| c3 s3]; [discriminate |].
  change (String c3 s3 ++ t)%string with (String c3 (s3 ++ t)%string). cbn iota.
  destruct (isWhiteSpace3 c1 c2 c3); [injection H as <-; reflexivity | discriminate].
Qed.

Lemma blank_app (s t : string) :
  blank s = true -> blank t = true -> blank (s ++ t) = true.
Proof.
  induction s as [s IH] using whiteSpace_ind. intros Hs Ht.
  rewrite blank_step in Hs.
  destruct (isWhiteSpace s) as [rest |] eqn:E.
  - rewrite blank_step, (isWhiteSpace_app _ _ t E). apply (IH rest eq_refl Hs Ht).
  - apply falsy_true_iff in Hs. subst s. exact Ht.
Qed.

(** What [trimEnd] removes is white space, and what it leaves does not end
    with white space: no end of it is blank, the empty one apart. *)
Lemma trimEnd_removed (s : string) :
  exists t, s = (trimEnd s ++ t)%string /\ blank t = true.
Proof.
  induction s as [| c s IH]; [exists ""; split; reflexivity |].
  cbn [trimEnd]. destruct (blank (String c s)) eqn:E.
  - exists (String c s). split; [reflexivity | exact E].
  - destruct IH as (t & Hs & Ht). exists t. split; [| exact Ht].
    change (String c s = String c (trimEnd s ++ t)%string). f_equal. exact Hs.
Qed.

Lemma trimEnd_done (s u v : string) :
  trimEnd s = (u ++ v)%string -> v <> "" -> blank v = false.
Proof.
  revert u. induction s as [| c s IH]; intros u Huv Hv.
  - destruct u; [| discriminate]. change (EmptyString = v) in Huv. congruence.
  - cbn [trimEnd] in Huv. destruct (blank (String c s)) eqn:E.
    + destruct u; [| discriminate]. change (EmptyString = v) in Huv. congruence.
    + destruct u as [| c' u].
      * change (String c (trimEnd s) = v) in Huv. subst v.
        destruct (blank (String c (trimEnd s))) eqn:Eb; [| reflexivity].
        exfalso. destruct (trimEnd_removed s) as (t & Hs & Ht).
        pose proof (blank_app _ t Eb Ht) as Hall.
        change (String c (trimEnd s) ++ t)%string
          with (String c (trimEnd s ++ t)%string) in Hall.
        rewrite <- Hs in Hall. congruence.
      * change (String c (trimEnd s) = String c' (u ++ v)%string) in Huv.
        injection Huv as _ Huv. exact (IH u Huv Hv).
Qed.

Example trim_spaces : trim "  I'm okay, a bit tired. " = "I'm okay, a bit tired.".
Proof. reflexivity. Qed.

Example trim_blank : trim "   " = "".
Proof. reflexivity. Qed.

(** White space beyond ASCII goes as well, and a character that only shares
    its last byte with the no-break space stays. *)
Example trim_unicode :
  trim (noBreakSpace ++ " hi " ++ ideographicSpace ++ noBreakSpace) = "hi" /\
  trim (ideographicSpace ++ noBreakSpace) = "" /\
  trim (" " ++ aGrave ++ " ") = aGrave.
Proof. repeat split; reflexivity. Qed.

End JsFacts.

(** ** The mock API service *)

Section ApiFacts.

Import Api.

Variable Date_getTime : string -> option Z.

Lemma login_rejects (now : Z) (credentials : LoginForm) (st : Store) :
  form_name credentials = "" \/ form_dateOfBirth credentials = "" ->
  login Date_getTime now credentials st =
    (st, mkApiResponse false None (Some "Name and date of birth are required") None).
Proof.
  intros H. unfold login.
  destruct H as [-> | ->]; simpl; [reflexivity |].
  rewrite orb_true_r. reflexivity.
Qed.

Lemma login_accepts (now : Z) (credentials : LoginForm) (st : Store) :
  form_name credentials <> "" -> form_dateOfBirth credentials <> "" ->
  login Date_getTime now credentials st =
    let u := mkUser "1" (form_name credentials) (form_dateOfBirth credentials)
               None (Some loginAvatar) in
    (mkStore (Some u)
       (Some (spreadUser mockPatient u
                (ageAt now (Date_getTime (form_dateOfBirth credentials)))))
       (conversations st) (alerts st) (objects st) (timers st),
     mkApiResponse true (Some u) None (Some "Login successful")).
Proof.
  intros Hn Hd. unfold login.
  apply falsy_false_iff in Hn, Hd. rewrite Hn, Hd. reflexivity.
Qed.

(** C10. Any credentials with a non-empty name and a non-empty date of birth
    log in, whatever the stored users are: nothing is compared with
    [mockUsers].  The response is a success carrying a user with exactly the
    submitted name and date of birth, and the current patient becomes the
    single mock patient record, id "1", under that name and date of birth. *)
Theorem login_any_credentials (now : Z) (credentials : LoginForm) (st : Store) :
  form_name credentials <> "" -> form_dateOfBirth credentials <> "" ->
  let r := login Date_getTime now credentials st in
  let u := mkUser "1" (form_name credentials) (form_dateOfBirth credentials)
             None (Some loginAvatar) in
  success (snd r) = true /\
  data (snd r) = Some u /\
  error (snd r) = None /\
  currentUser (fst r) = Some u /\
  currentPatient (fst r) =
    Some (spreadUser mockPatient u
            (ageAt now (Date_getTime (form_dateOfBirth credentials)))) /\
  (id <$> currentPatient (fst r)) = Some (id mockPatient) /\
  id mockPatient = "1" /\
  (name <$> currentPatient (fst r)) = Some (form_name credentials) /\
  (dateOfBirth <$> currentPatient (fst r)) = Some (form_dateOfBirth credentials).
Proof.
  intros Hn Hd r u. subst r.
  rewrite (login_accepts now credentials st Hn Hd). simpl.
  repeat split; reflexivity.
Qed.

Lemma lookup_pushed (m : ChatMessage) (now : Z) (target i : nat)
  (l : list Conversation) (c : Conversation) :
  l !! i = Some c ->
  exists c', alter (pushMessage m now) target l !! i = Some c' /\
    messages c' = messages c ++ (if decide (i = target) then [m] else []).
Proof.
  intros Hi. destruct (decide (i = target)) as [-> | Hne].
  - exists (pushMessage m now c). split; [| reflexivity].
    rewrite list_lookup_alter_eq, Hi. reflexivity.
  - exists c. split.
    + rewrite list_lookup_alter_ne by congruence. exact Hi.
    + rewrite app_nil_r. reflexivity.
Qed.

(** C8. Conversation turns are append-only.  The two operations that add a
    message, [sendMessage] and the reply callback it schedules, keep every
    conversation object with all the messages it had, unchanged and in
    order; the conversation written to gets the new message at its end and
    no other conversation gets anything.  The other operations of the
    service that write to the store leave the conversation objects as they
    are. *)
Theorem messages_append_only (now : Z) (conversationId content : string)
  (random : Q) (st : Store) (i : nat) (c : Conversation) :
  objects st !! i = Some c ->
  (exists c',
     objects (fst (sendMessage now conversationId content st)) !! i = Some c' /\
     messages c' =
       messages c ++
       (if decide (i = findConversation st conversationId)
        then [mkChatMessage (pretty now) user content now text None] else [])) /\
  (exists c',
     objects (runTimer now random st) !! i = Some c' /\
     messages c' =
       messages c ++
       match timers st with
       | [] => []
       | t :: _ =>
           if decide (i = timer_conversation t)
           then [aiResponseOf now random t] else []
       end) /\
  (forall credentials,
     objects (fst (login Date_getTime now credentials st)) = objects st) /\
  objects (fst (logout st)) = objects st /\
  (forall healthData,
     objects (fst (updatePatientHealthData healthData st)) = objects st) /\
  objects (fst (getConversations st)) = objects st /\
  objects (fst (getAlerts now st)) = objects st.
Proof.
  intros Hi. split; [| split; [| split; [| split; [| split; [| split]]]]].
  - unfold sendMessage; simpl. apply lookup_pushed. exact Hi.
  - unfold runTimer. destruct (timers st) as [| t rest]; simpl.
    + exists c. rewrite app_nil_r. split; [exact Hi | reflexivity].
    + apply lookup_pushed. exact Hi.
  - intros credentials. unfold login.
    destruct (Js.falsy _ || Js.falsy _); reflexivity.
  - reflexivity.
  - intros healthData. unfold updatePatientHealthData.
    destruct (currentPatient st); reflexivity.
  - reflexivity.
  - reflexivity.
Qed.

Lemma responses_index (random : Q) :
  (0 <= random)%Q -> (random < 1)%Q ->
  (Z.to_nat (Qfloor (random * inject_Z (Z.of_nat (length responses)))) < length responses)%nat.
Proof.
  intros H0 H1. change (length responses) with 8%nat.
  change (Z.of_nat 8) with 8%Z.
  assert (Hlo : (0 <= Qfloor (random * inject_Z 8))%Z).
  { change 0%Z with (Qfloor 0). apply Qfloor_resp_le.
    apply Qmult_le_0_compat; [exact H0 | discriminate]. }
  assert (Hhi : (Qfloor (random * inject_Z 8) < 8)%Z).
  { rewrite Zlt_Qlt. eapply Qle_lt_trans; [apply Qfloor_le |].
    destruct random as [n d]. unfold Qlt, Qmult, inject_Z in *. simpl in *. lia. }
  lia.
Qed.


(** The replies of the service are not deterministic: two values of
    [Math.random()] give two different replies to one message. *)
Lemma reply_not_deterministic :
  ~ (forall (r1 r2 : Q) (userMessage : string),
        (0 <= r1)%Q -> (r1 < 1)%Q -> (0 <= r2)%Q -> (r2 < 1)%Q ->
        generateAIResponse r1 userMessage = generateAIResponse r2 userMessage).
Proof.
  intros H.
  specialize (H 0%Q (1 # 2)%Q "I feel tired").
  assert (E : generateAIResponse 0 "I feel tired" = generateAIResponse (1 # 2) "I feel tired").
  { apply H; unfold Qle, Qlt; simpl; lia. }
  vm_compute in E. discriminate E.
Qed.







End ApiFacts.

(** ** The patient chat page *)

Section PageFacts.

Import PatientChatPage.

(** The effects settled: an empty chat gets the greeting, and the
    questionnaire is shown when the gate holds of the chat. *)
Lemma settle_eq now s :
  settle now s =
    if mounted s then
      mkState
        (match chat s with
         | [] => [mkMessage bot "How are you today?" now]
         | _ :: _ => chat s
         end)
        (input s) (loading s)
        (showQuestionnaire s || questionnaireGate (chat s))
        (questionnaireAnswers s) (mounted s) (pendingReplies s) (pendingSaves s)
    else s.
Proof.
  destruct s as [c inp ld sh ans mt pr ps]. unfold settle; simpl.
  destruct mt; [| reflexivity].
  destruct c as [| m1 [| [[] tx ts] [| m3 c]]];
    unfold effects, greetingEffect, questionnaireGate, setShowQuestionnaire, addMessage, setChat;
    simpl; destruct sh; reflexivity.
Qed.

Lemma settle_unmounted now s : mounted s = false -> settle now s = s.
Proof. intros H. unfold settle. rewrite H. reflexivity. Qed.

(** A further pass of the effects changes nothing. *)
Lemma settle_stable now now' s :
  mounted s = true -> effects now' (settle now s) = settle now s.
Proof.
  intros Hm. rewrite settle_eq, Hm.
  destruct s as [c inp ld sh ans mt pr ps]; simpl in *.
  destruct c as [| m1 [| [[] tx ts] [| m3 c]]];
    unfold effects, greetingEffect, questionnaireGate, setShowQuestionnaire;
    simpl; destruct sh; reflexivity.
Qed.

(** Every event keeps the invariant. *)
Lemma step_invariant now e s s' :
  invariant s -> step now e s = Some s' -> invariant s'.
Proof.
  intros Hinv Hstep.
  destruct s as [c inp ld sh ans mt pr ps].
  unfold invariant in Hinv; simpl in Hinv.
  destruct e; enabled Hstep.
  - (* Render *)
    destruct mt; [| discriminate]. injection Hstep as <-.
    destruct (Hinv eq_refl) as [-> Hrest]. rewrite settle_eq; simpl.
    intros _; simpl. split; [reflexivity |].
    destruct sh; simpl.
    + destruct Hrest as (g & u & rest & -> & Hu & Hne). eauto 10.
    + destruct Hrest as (-> & -> & -> & [[-> ->] | [t ->]]); simpl; eauto 10.
  - (* Change *)
    destruct mt; [| discriminate]. destruct sh; [discriminate |].
    destruct ld; [discriminate |]. simpl in Hstep. injection Hstep as <-.
    destruct (Hinv eq_refl) as [-> Hrest]. rewrite settle_eq; simpl.
    intros _; simpl. split; [reflexivity |].
    destruct Hrest as (-> & -> & _ & [[-> ->] | [t ->]]); simpl; eauto 10.
  - (* SendClick *)
    destruct mt; [| discriminate]. destruct sh; [discriminate |].
    destruct ld; [discriminate |]. simpl in Hstep. injection Hstep as <-.
    destruct (Hinv eq_refl) as [-> Hrest].
    destruct Hrest as (-> & -> & _ & [[-> ->] | [t ->]]);
      unfold handleSend; simpl.
    + rewrite settle_eq; simpl. intros _; simpl. eauto 10.
    + destruct (Js.falsy (Js.trim inp)) eqn:E; simpl; rewrite settle_eq; simpl; intros _; simpl.
      * eauto 10.
      * split; [reflexivity |]. do 3 eexists. split; [reflexivity |]. split; [reflexivity |].
        simpl. intros H. rewrite H in E. discriminate.
  - (* ReplySettled *)
    destruct (0 <? pr)%nat eqn:Hpr; [| discriminate]. injection Hstep as <-.
    apply Nat.ltb_lt in Hpr.
    destruct mt.
    + destruct (Hinv eq_refl) as [-> Hrest].
      destruct sh; [| destruct Hrest as (-> & _); lia].
      destruct Hrest as (g & u & rest & -> & Hu & Hne).
      destruct reply; unfold handleSendResume; simpl; rewrite settle_eq; simpl;
        intros _; simpl; (split; [reflexivity |]); eauto 10.
    + rewrite settle_unmounted.
      * intros H. destruct reply; simpl in H; discriminate.
      * destruct reply; reflexivity.
  - (* QuestionnaireSubmit *)
    destruct mt; [| discriminate]. destruct sh; [| discriminate].
    destruct ans; [discriminate |]. simpl in Hstep. injection Hstep as <-.
    destruct (Hinv eq_refl) as [_ Hrest].
    destruct Hrest as (g & u & rest & -> & Hu & Hne).
    unfold handleQuestionnaireSubmit; simpl. rewrite settle_eq; simpl.
    intros _; simpl. split; [reflexivity |]. eauto 10.
  - (* SaveSettled *)
    destruct ps as [| a ps]; [discriminate |]. injection Hstep as <-.
    unfold handleQuestionnaireSubmitResume; simpl.
    rewrite settle_unmounted by reflexivity.
    intros H; simpl in H; discriminate.
Qed.

Lemma reachable_invariant s : reachable s -> invariant s.
Proof.
  induction 1 as [| now e s s' _ IH Hstep].
  - intros _. simpl. repeat split; eauto.
  - eapply step_invariant; eassumption.
Qed.

(** An event leaves the phase as it is or moves to the next one. *)
Lemma step_phase now e s s' :
  invariant s -> step now e s = Some s' ->
  phaseOf s' = phaseOf s \/ nextPhase (phaseOf s) = Some (phaseOf s').
Proof.
  intros Hinv Hstep.
  destruct s as [c inp ld sh ans mt pr ps].
  unfold invariant in Hinv; simpl in Hinv.
  destruct e; enabled Hstep.
  - destruct mt; [| discriminate]. injection Hstep as <-.
    destruct (Hinv eq_refl) as [-> Hrest]. rewrite settle_eq; unfold phaseOf; simpl.
    destruct sh; simpl.
    + left; reflexivity.
    + destruct Hrest as (-> & -> & -> & [[-> ->] | [t ->]]); simpl; eauto.
  - destruct mt; [| discriminate]. destruct sh; [discriminate |].
    destruct ld; [discriminate |]. simpl in Hstep. injection Hstep as <-.
    destruct (Hinv eq_refl) as [-> Hrest]. rewrite settle_eq; unfold phaseOf; simpl.
    destruct Hrest as (-> & -> & _ & [[-> ->] | [t ->]]); simpl; eauto.
  - destruct mt; [| discriminate]. destruct sh; [discriminate |].
    destruct ld; [discriminate |]. simpl in Hstep. injection Hstep as <-.
    destruct (Hinv eq_refl) as [-> Hrest].
    destruct Hrest as (-> & -> & _ & [[-> ->] | [t ->]]);
      unfold handleSend; simpl.
    + rewrite settle_eq; unfold phaseOf; simpl. eauto.
    + destruct (Js.falsy (Js.trim inp)) eqn:E; simpl; rewrite settle_eq; unfold phaseOf; simpl; eauto.
  - destruct (0 <? pr)%nat eqn:Hpr; [| discriminate]. injection Hstep as <-.
    apply Nat.ltb_lt in Hpr.
    destruct mt.
    + destruct (Hinv eq_refl) as [-> Hrest].
      destruct sh; [| destruct Hrest as (-> & _); lia].
      destruct Hrest as (g & u & rest & -> & Hu & Hne).
      destruct reply; unfold handleSendResume; simpl; rewrite settle_eq; unfold phaseOf; simpl;
        left; reflexivity.
    + rewrite settle_unmounted by (destruct reply; reflexivity).
      left. destruct reply; reflexivity.
  - destruct mt; [| discriminate]. destruct sh; [| discriminate].
    destruct ans; [discriminate |]. simpl in Hstep. injection Hstep as <-.
    unfold handleQuestionnaireSubmit; simpl. rewrite settle_eq; unfold phaseOf; simpl.
    destruct ps; simpl; eauto.
  - destruct ps as [| a ps]; [discriminate |]. injection Hstep as <-.
    unfold handleQuestionnaireSubmitResume; simpl.
    rewrite settle_unmounted by reflexivity.
    unfold phaseOf; simpl. destruct mt; simpl; eauto.
Qed.

Lemma phasesFrom_next p q : nextPhase p = Some q -> phasesFrom p = p :: phasesFrom q.
Proof. destruct p; simpl; intros H; inversion H; reflexivity. Qed.

Lemma visited_from events : forall s states,
  invariant s -> run events s = Some states ->
  (phaseOf s :: visited (phaseOf s) states) `prefix_of` phasesFrom (phaseOf s).
Proof.
  induction events as [| [now e] events IH]; intros s states Hinv Hrun; simpl in Hrun.
  - injection Hrun as <-. simpl. destruct (phaseOf s); simpl; eexists; reflexivity.
  - destruct (step now e s) as [s' |] eqn:Hstep; [| discriminate].
    destruct (run events s') as [l |] eqn:Hl; [| discriminate].
    injection Hrun as <-.
    pose proof (step_invariant _ _ _ _ Hinv Hstep) as Hinv'.
    specialize (IH s' l Hinv' Hl). simpl.
    destruct (step_phase _ _ _ _ Hinv Hstep) as [Hsame | Hnext].
    + rewrite decide_True by exact Hsame. rewrite <- Hsame. exact IH.
    + destruct (decide (phaseOf s' = phaseOf s)) as [Heq | Hne].
      * rewrite <- Heq. exact IH.
      * rewrite (phasesFrom_next _ _ Hnext). apply prefix_cons. exact IH.
Qed.

(** C1.  In every run of the page from its initial state the phases visited
    form a prefix of INIT, COMPANION, QUESTIONNAIRE, ANALYSIS, COMPLETE: none
    is skipped, none is entered twice, and ABORTED does not occur. *)
Theorem phases_monotonic (events : list (string * Event)) (states : list State) :
  run events initialState = Some states ->
  (INIT :: visited INIT states) `prefix_of` phases /\
  NoDup (INIT :: visited INIT states) /\
  ABORTED ∉ (INIT :: visited INIT states).
Proof.
  intros Hrun.
  assert (Hp : (INIT :: visited INIT states) `prefix_of` phases).
  { apply (visited_from events initialState states); [| exact Hrun].
    apply reachable_invariant. constructor. }
  split; [exact Hp |].
  destruct Hp as [k Hk].
  assert (Hnd : NoDup phases).
  { apply (bool_decide_unpack _). reflexivity. }
  split.
  - rewrite Hk in Hnd. apply NoDup_app in Hnd. tauto.
  - intros Hin.
    assert (Hall : ABORTED ∈ phases) by (rewrite Hk; apply elem_of_app; left; exact Hin).
    revert Hall. apply (bool_decide_unpack _). reflexivity.
Qed.

(** C3 (as stated, refuted).  The claim lets only a substantive utterance,
    non-empty and not a greeting, open the questionnaire.  After the greeting
    of the page the patient types "hello" and sends it: the questionnaire is
    shown. *)
Lemma greeting_opens_questionnaire :
  ~ (forall now s s',
       reachable s -> phaseOf s = COMPANION -> step now SendClick s = Some s' ->
       (phaseOf s' = QUESTIONNAIRE <-> substantive (input s) = true)).
Proof.
  intros H.
  pose (s1 := settle "09:00" initialState).
  pose (s2 := settle "09:01" (setInput "hello" s1)).
  assert (R : reachable s2).
  { apply (reachable_step "09:01" (Change "hello") s1); [| reflexivity].
    apply (reachable_step "09:00" Render initialState); [constructor | reflexivity]. }
  destruct (step "09:02" SendClick s2) as [s3 |] eqn:E; [| discriminate E].
  specialize (H "09:02" s2 s3 R eq_refl E).
  vm_compute in E. injection E as <-.
  destruct H as [H _]. specialize (H eq_refl). vm_compute in H. discriminate H.
Qed.

Lemma questionnaire_shown_iff (s : State) :
  invariant s -> mounted s = true ->
  (showQuestionnaire s = true <->
   exists m, m ∈ chat s /\ isPatient m = true /\ Js.trim (text m) <> "").
Proof.
  intros Hinv Hm. destruct (Hinv Hm) as [_ Hrest].
  destruct (showQuestionnaire s).
  - destruct Hrest as (g & u & rest & Hc & Hu & Hne). split; [intros _ | reflexivity].
    exists u. rewrite Hc. split; [| split; [| exact Hne]].
    + apply list_elem_of_further, list_elem_of_here.
    + unfold isPatient. rewrite Hu. reflexivity.
  - split; [discriminate |]. intros (m & Hin & Hp & _).
    destruct Hrest as (_ & _ & _ & [[Hc _] | [t Hc]]); rewrite Hc in Hin.
    + inversion Hin.
    + apply list_elem_of_singleton in Hin. subst m. discriminate Hp.
Qed.

Lemma leaving_companion (now : string) (e : Event) (s s' : State) :
  invariant s -> phaseOf s = COMPANION -> step now e s = Some s' ->
  (phaseOf s' = QUESTIONNAIRE <-> e = SendClick /\ Js.trim (input s) <> "") /\
  (phaseOf s' = QUESTIONNAIRE \/ phaseOf s' = COMPANION).
Proof.
  intros Hr Hph Hstep.
  destruct s as [c inp ld sh ans mt pr ps].
  unfold invariant in Hr; simpl in Hr. unfold phaseOf in Hph; simpl in Hph.
  destruct mt; [| discriminate]. simpl in Hph.
  destruct (Hr eq_refl) as [-> Hrest].
  destruct ps; [| discriminate]. destruct sh; [discriminate |].
  destruct Hrest as (-> & _ & -> & [[-> ->] | [t ->]]); [discriminate |].
  destruct e; enabled Hstep; try discriminate; injection Hstep as <-.
  - rewrite settle_eq; unfold phaseOf; simpl. split; [| eauto].
    split; [discriminate | intros [? _]; discriminate].
  - rewrite settle_eq; unfold phaseOf; simpl. split; [| eauto].
    split; [discriminate | intros [? _]; discriminate].
  - unfold handleSend; simpl.
    destruct (Js.falsy (Js.trim inp)) eqn:E; simpl; rewrite settle_eq; unfold phaseOf; simpl.
    + apply falsy_true_iff in E. split; [| eauto].
      split; [discriminate | intros [_ Hn]; contradiction].
    + apply falsy_false_iff in E. split; [| eauto]. split; eauto.
Qed.

(** C3 (amended).  The questionnaire is shown exactly when the chat holds a
    message of the patient that is not blank, a greeting as well as anything
    else.  While the patient can type (COMPANION), the page moves on to the
    questionnaire exactly when such a message is sent; no other event leaves
    the phase. *)
Theorem questionnaire_gate (now : string) (e : Event) (s s' : State) :
  reachable s ->
  (mounted s = true ->
   (showQuestionnaire s = true <->
    exists m, m ∈ chat s /\ isPatient m = true /\ Js.trim (text m) <> "")) /\
  (phaseOf s = COMPANION -> step now e s = Some s' ->
   (phaseOf s' = QUESTIONNAIRE <-> e = SendClick /\ Js.trim (input s) <> "") /\
   (phaseOf s' = QUESTIONNAIRE \/ phaseOf s' = COMPANION)).
Proof.
  intros Hr. apply reachable_invariant in Hr. split.
  - apply questionnaire_shown_iff. exact Hr.
  - apply leaving_companion. exact Hr.
Qed.

Lemma shown_or_unmounted s :
  invariant s ->
  phaseOf s = QUESTIONNAIRE \/ phaseOf s = ANALYSIS \/ phaseOf s = COMPLETE ->
  mounted s = false \/
  (mounted s = true /\ showQuestionnaire s = true /\ exists g u rest, chat s = g :: u :: rest).
Proof.
  intros Hinv Hph. destruct s as [c inp ld sh ans mt pr ps].
  unfold invariant in Hinv; simpl in *. unfold phaseOf in Hph; simpl in Hph.
  destruct mt; [right | left; reflexivity].
  destruct (Hinv eq_refl) as [_ Hrest]. simpl in Hph.
  destruct sh.
  - destruct Hrest as (g & u & rest & -> & _). eauto 10.
  - destruct Hrest as (_ & -> & _ & Hc). simpl in Hph.
    destruct c; destruct Hph as [? | [? | ?]]; discriminate.
Qed.

(** X22.  From the moment the questionnaire is shown, and so in every
    finished session, the page renders neither the message input nor the
    Send button: no message can be sent or typed, no error is involved, and
    whatever happens next the chat gains no message of the patient and the
    session does not go back to an earlier phase. *)
Theorem no_patient_message_after_questionnaire (now : string) (s : State) :
  reachable s ->
  phaseOf s = QUESTIONNAIRE \/ phaseOf s = ANALYSIS \/ phaseOf s = COMPLETE ->
  rendered s MessageInput = false /\
  rendered s SendButton = false /\
  step now SendClick s = None /\
  (forall v, step now (Change v) s = None) /\
  (forall e s',
     step now e s = Some s' ->
     (phaseOf s' = QUESTIONNAIRE \/ phaseOf s' = ANALYSIS \/ phaseOf s' = COMPLETE) /\
     (forall m, m ∈ chat s' -> isPatient m = true -> m ∈ chat s)).
Proof.
  intros Hr Hph. apply reachable_invariant in Hr.
  pose proof (shown_or_unmounted s Hr Hph) as Hs.
  assert (Hnot : rendered s MessageInput = false /\ rendered s SendButton = false).
  { unfold rendered. destruct Hs as [-> | (-> & -> & _)]; split; reflexivity. }
  destruct Hnot as [Hi Hb].
  split; [exact Hi |]. split; [exact Hb |].
  split; [unfold step, usable; rewrite Hb; reflexivity |].
  split; [intros v; unfold step, usable; rewrite Hi; reflexivity |].
  intros e s' Hstep. split.
  - destruct (step_phase _ _ _ _ Hr Hstep) as [-> | Hn]; [exact Hph |].
    destruct Hph as [E | [E | E]]; rewrite E in Hn; simpl in Hn; inversion Hn; eauto.
  - intros m Hm Hp.
    destruct e; simpl in Hstep.
    + destruct (mounted s) eqn:Hmt; [| discriminate]. injection Hstep as <-.
      destruct Hs as [? | (_ & _ & g & u & rest & Hc)]; [congruence |].
      rewrite settle_eq, Hmt, Hc in Hm; simpl in Hm. rewrite Hc. exact Hm.
    + unfold usable in Hstep; rewrite Hi in Hstep; discriminate.
    + unfold usable in Hstep; rewrite Hb in Hstep; discriminate.
    + destruct (0 <? pendingReplies s)%nat; [| discriminate]. injection Hstep as <-.
      assert (Hc : chat (settle now (fst (handleSendResume now reply s))) =
                   chat (fst (handleSendResume now reply s))).
      { rewrite settle_eq.
        destruct (mounted (fst (handleSendResume now reply s))) eqn:Hmt; [| reflexivity].
        simpl.
        destruct Hs as [Hun | (_ & _ & g & u & rest & Hc)].
        - destruct reply; simpl in Hmt; congruence.
        - destruct reply; simpl; rewrite Hc; reflexivity. }
      rewrite Hc in Hm. destruct reply as [t |]; simpl in Hm; [| exact Hm].
      apply elem_of_app in Hm. destruct Hm as [Hm | Hm]; [exact Hm |].
      apply list_elem_of_singleton in Hm. subst m. discriminate Hp.
    + unfold usable in Hstep.
      destruct (rendered s QuestionnaireForm) eqn:Hq; [| discriminate].
      simpl in Hstep. injection Hstep as <-.
      destruct Hs as [Hun | (Hmt & _ & g & u & rest & Hc)].
      * unfold rendered in Hq. rewrite Hun in Hq. discriminate.
      * rewrite settle_eq in Hm; simpl in Hm. rewrite Hmt, Hc in Hm. simpl in Hm.
        rewrite Hc. exact Hm.
    + destruct (pendingSaves s) as [| a rest] eqn:Hps; [discriminate |].
      injection Hstep as <-.
      unfold handleQuestionnaireSubmitResume in Hm. rewrite Hps in Hm.
      rewrite settle_unmounted in Hm by reflexivity. simpl in Hm.
      inversion Hm.
Qed.

(** C6 (as stated, refuted).  The claim has empty input fail with an error
    surfaced to the caller.  [handleSend] on an empty input just returns; it
    has no result and leaves the state as it was, so nothing is reported. *)
Lemma blank_input_raises_no_error :
  ~ (forall now s, Js.trim (input s) = "" -> snd (handleSend now s) = Threw).
Proof.
  intros H. specialize (H "09:00" initialState eq_refl). discriminate H.
Qed.

(** C6 (amended).  [login] answers an empty name or an empty date of birth
    with a failure response carrying "Name and date of birth are required"
    and leaves the store as it is; [handleSend] on a blank input (empty or
    white space only) returns without reporting anything and changes
    nothing. *)
Theorem empty_input_changes_nothing (Date_getTime : string -> option Z) (now : Z)
  (credentials : Api.LoginForm) (st : Api.Store) (clock : string) (s : State) :
  (Api.form_name credentials = "" \/ Api.form_dateOfBirth credentials = "" ->
   Api.login Date_getTime now credentials st =
     (st, Api.mkApiResponse false None (Some "Name and date of birth are required") None)) /\
  (Js.trim (input s) = "" -> handleSend clock s = (s, Returned)).
Proof.
  split.
  - apply login_rejects.
  - intros H. unfold handleSend. rewrite H. reflexivity.
Qed.


End PageFacts.

(** ** The question adapter *)

Section CoreFacts.

Import Core.

Lemma nextQuestion_limit c t answeredSoFar e :
  (maxQuestionsPerSession c <= length answeredSoFar)%nat ->
  nextQuestion c t answeredSoFar e = None.
Proof.
  intros H. unfold nextQuestion.
  apply Nat.leb_le in H. rewrite H. reflexivity.
Qed.

Lemma nextQuestion_exhausted c t answeredSoFar e :
  (forall q, In q (plan t answeredSoFar) -> answerTo answeredSoFar (qid q) <> None) ->
  nextQuestion c t answeredSoFar e = None.
Proof.
  intros H. unfold nextQuestion.
  destruct (maxQuestionsPerSession c <=? length answeredSoFar)%nat; [reflexivity |].
  destruct (List.find _ (plan t answeredSoFar)) as [q |] eqn:E; [| reflexivity].
  apply find_some in E. destruct E as [Hin Hq].
  specialize (H q Hin). destruct (answerTo answeredSoFar (qid q)); [discriminate | contradiction].
Qed.

Lemma nextQuestion_room c t answeredSoFar e q :
  nextQuestion c t answeredSoFar e = Some q ->
  (length answeredSoFar < maxQuestionsPerSession c)%nat.
Proof.
  unfold nextQuestion.
  destruct (maxQuestionsPerSession c <=? length answeredSoFar)%nat eqn:E; [discriminate |].
  intros _. apply Nat.leb_gt in E. exact E.
Qed.

Lemma processAnswer_bounded c t turns : forall s,
  (length (proResponses s) <= maxQuestionsPerSession c)%nat ->
  (forall q, asked s = Some q ->
             (length (proResponses s) < maxQuestionsPerSession c)%nat) ->
  (length (proResponses (foldl (fun s turn => processAnswer c t turn s) s turns))
   <= maxQuestionsPerSession c)%nat.
Proof.
  induction turns as [| turn turns IH]; intros s Hle Hask; simpl; [exact Hle |].
  apply IH; unfold processAnswer.
  - destruct (asked s) as [q |] eqn:E; [| exact Hle].
    simpl. rewrite length_app. simpl. specialize (Hask q eq_refl). lia.
  - destruct (asked s) as [q |] eqn:E; [| intros q' Hq'; congruence].
    simpl. intros q' Hq'. apply nextQuestion_room in Hq'.
    unfold answered in Hq'. rewrite length_map in Hq'. exact Hq'.
Qed.

(** C5.  A session never records more PROResponses than
    [maxQuestionsPerSession], 5 by default: the adapter returns [None] once
    that many answers are in, and also once every question of the base
    sequence and of the unlocked follow-ups has an answer.  The static
    questionnaire of the front end is within the default bound. *)
Theorem responses_bounded (c : Config) (t : QuestionnaireTemplate) (e : Emotion)
  (turns : list (Answer * Emotion)) :
  (length (proResponses (questionnaire c t e turns)) <= maxQuestionsPerSession c)%nat /\
  (forall answeredSoFar e',
     (maxQuestionsPerSession c <= length answeredSoFar)%nat ->
     nextQuestion c t answeredSoFar e' = None) /\
  (forall answeredSoFar e',
     (forall q, In q (plan t answeredSoFar) -> answerTo answeredSoFar (qid q) <> None) ->
     nextQuestion c t answeredSoFar e' = None) /\
  maxQuestionsPerSession defaultConfig = 5%nat /\
  (length (QuestionnaireApi.questions QuestionnaireApi.getQuestionnaire)
   <= maxQuestionsPerSession defaultConfig)%nat.
Proof.
  split; [| split; [| split; [| split]]].
  - unfold questionnaire. apply processAnswer_bounded; unfold startQuestioning; simpl.
    + lia.
    + intros q Hq. apply nextQuestion_room in Hq. exact Hq.
  - intros a e'. apply nextQuestion_limit.
  - intros a e'. apply nextQuestion_exhausted.
  - reflexivity.
  - simpl. lia.
Qed.

(** The static questionnaire of the front end through the adapter: its three
    questions in order, then [None]. *)
Example static_questionnaire_asked :
  let t := templateOf QuestionnaireApi.getQuestionnaire in
  let e := mkEmotion neutral (1 # 2) in
  map (fun turns => qid <$> asked (questionnaire defaultConfig t e turns))
    [ [];
      [(freeText "7", e)];
      [(freeText "7", e); (choice "No", e)];
      [(freeText "7", e); (choice "No", e); (choice "Good", e)] ]
  = [Some "q1-1"; Some "q1-2"; Some "q1-3"; None].
Proof. reflexivity. Qed.

End CoreFacts.

(** ** Supporting facts and scenarios *)

(** White space beyond ASCII makes a draft blank like spaces do: on the
    patient chat page Send changes nothing and the questionnaire stays
    closed, on the chat page of the service the Send button is disabled, and
    the welcome page does not submit such a name. *)
Example unicode_blank_draft :
  let draft := (Js.noBreakSpace ++ " " ++ Js.ideographicSpace)%string in
  let s2 :=
    PatientChatPage.settle "09:01"
      (PatientChatPage.setInput draft
         (PatientChatPage.settle "09:00" PatientChatPage.initialState)) in
  PatientChatPage.step "09:02" PatientChatPage.SendClick s2 = Some s2 /\
  PatientChatPage.phaseOf s2 = PatientChatPage.COMPANION /\
  ChatPage.sendDisabled (ChatPage.mkState None None draft false false) = true /\
  WelcomePage.submits (Api.mkLoginForm draft "2001-02-03") = false.
Proof. repeat split; reflexivity. Qed.

(** Input that is malformed but not empty is accepted: a name of white space
    and a date that does not parse log in. *)
Example login_accepts_blank_name :
  Api.success
    (snd (Api.login (fun _ => None) 0 (Api.mkLoginForm "   " "not a date")
            (Api.initialStore 0))) = true /\
  (Api.age <$> Api.currentPatient
     (fst (Api.login (fun _ => None) 0 (Api.mkLoginForm "   " "not a date")
             (Api.initialStore 0)))) = Some Js.NaN.
Proof. split; reflexivity. Qed.

(** [conversations] shares the object of [mockConversation]: once
    [getConversations] has run, a message sent to conversation "1" and a
    message sent to an unknown conversation land in the same object. *)
Example messages_land_in_the_shared_object :
  let st1 := fst (Api.getConversations (Api.initialStore 0)) in
  let st2 := fst (Api.sendMessage 1000 "1" "first" st1) in
  let st3 := fst (Api.sendMessage 2000 "no such conversation" "second" st2) in
  Api.conversations st3 = [Api.mockConversationRef] /\
  (map Api.content <$> (Api.messages <$> Api.objects st3 !! Api.mockConversationRef))
    = Some (map Api.content (Api.mockMessages 0) ++ ["first"; "second"]) /\
  length (Api.objects st3) = 1%nat.
Proof. repeat split; reflexivity. Qed.

(** Sending a message and the reply to it leave the alerts alone, whatever
    [Math.random()] returns. *)
Lemma alerts_untouched_by_chat (now1 now2 : Z) (conversationId content : string)
  (random : Q) (st : Api.Store) :
  Api.alerts (Api.runTimer now2 random
                (fst (Api.sendMessage now1 conversationId content st)))
  = Api.alerts st.
Proof.
  unfold Api.runTimer, Api.sendMessage; simpl.
  destruct (Api.timers st ++ _); reflexivity.
Qed.

(** No message the service creates carries emotion metadata. *)
Lemma created_messages_have_no_metadata (now : Z) (conversationId content : string)
  (random : Q) (st : Api.Store) (t : Api.Timer) :
  (Api.metadata <$> Api.data (snd (Api.sendMessage now conversationId content st)))
    = Some None /\
  Api.metadata (Api.aiResponseOf now random t) = None.
Proof. split; reflexivity. Qed.

(** When the promise of [sendMessage] is rejected, [handleSend] throws: no
    reply is added and [loading] stays as it was. *)
Lemma rejected_reply_adds_nothing (now : string) (s : PatientChatPage.State) :
  snd (PatientChatPage.handleSendResume now None s) = PatientChatPage.Threw /\
  PatientChatPage.chat (fst (PatientChatPage.handleSendResume now None s))
    = PatientChatPage.chat s /\
  PatientChatPage.loading (fst (PatientChatPage.handleSendResume now None s))
    = PatientChatPage.loading s.
Proof. repeat split; reflexivity. Qed.

(** Scenario B: the answer "Severe" to the pain question brings the
    pain-location follow-up in before the next question of the base
    sequence. *)
Example severe_pain_follow_up :
  let calmly := Core.mkEmotion Core.calm (1 # 2) in
  let t :=
    Core.mkTemplate
      [ Core.mkQuestionDef "energy" "How would you rate your overall energy level today?"
          (Core.SingleChoice ["Excellent"; "Good"; "Fair"; "Poor"]) "energy" None;
        Core.mkQuestionDef "pain" "Have you experienced any pain or discomfort recently?"
          (Core.SingleChoice ["No"; "Mild"; "Moderate"; "Severe"]) "pain" None;
        Core.mkQuestionDef "sleep" "How many hours did you sleep last night?"
          Core.FreeText "sleep" None ]
      [ Core.mkFollowUp "pain" "Severe" 1
          (Core.mkQuestionDef "pain-location" "Where is the pain?" Core.FreeText "pain" None) ] in
  (Core.qid <$> Core.asked
     (Core.questionnaire Core.defaultConfig t calmly
        [(Core.choice "Good", calmly); (Core.choice "Severe", calmly)]))
    = Some "pain-location" /\
  (Core.qid <$> Core.asked
     (Core.questionnaire Core.defaultConfig t calmly
        [(Core.choice "Good", calmly); (Core.choice "Mild", calmly)]))
    = Some "sleep".
Proof. split; reflexivity. Qed.

(** ** The theorems at concrete inputs *)

Lemma login_any_credentials_witness :
  Forall (fun u => Api.user_name u <> "Mallory") Api.mockUsers /\
  Api.success
    (snd (Api.login (fun _ => None) 0 (Api.mkLoginForm "Mallory" "2001-02-03")
            (Api.initialStore 0))) = true.
Proof.
  split; [repeat constructor; discriminate |].
  apply (login_any_credentials (fun _ => None) 0
           (Api.mkLoginForm "Mallory" "2001-02-03") (Api.initialStore 0));
    discriminate.
Defined.

Lemma messages_append_only_witness :
  exists c',
    Api.objects (fst (Api.sendMessage 1000 "1" "I slept badly" (Api.initialStore 0)))
      !! 0%nat = Some c' /\
    length (Api.messages c') = 6%nat.
Proof.
  destruct (messages_append_only (fun _ => None) 1000 "1" "I slept badly" 0%Q
              (Api.initialStore 0) 0%nat (Api.mockConversation 0) eq_refl)
    as [[c' [Hl Hm]] _].
  exists c'. split; [exact Hl |]. rewrite Hm. reflexivity.
Defined.

Lemma phases_monotonic_witness :
  match
    PatientChatPage.run
      [ ("09:00", PatientChatPage.Render);
        ("09:01", PatientChatPage.Change "I'm okay, a bit tired.");
        ("09:02", PatientChatPage.SendClick);
        ("09:03", PatientChatPage.ReplySettled
                    (Some "This is a synthetic response. (Replace with real API call.)"));
        ("09:05", PatientChatPage.QuestionnaireSubmit {[ "q1-1" := "7" ]});
        ("09:06", PatientChatPage.SaveSettled) ]
      PatientChatPage.initialState
  with
  | Some states =>
      (PatientChatPage.INIT :: PatientChatPage.visited PatientChatPage.INIT states)
        `prefix_of` PatientChatPage.phases
  | None => False
  end.
Proof.
  match goal with |- match ?r with _ => _ end => destruct r as [states |] eqn:E end.
  - exact (proj1 (phases_monotonic _ _ E)).
  - vm_compute in E. discriminate E.
Defined.

Lemma questionnaire_gate_witness :
  PatientChatPage.phaseOf
    (PatientChatPage.settle "09:02"
       (fst (PatientChatPage.handleSend "09:02"
          (PatientChatPage.settle "09:01"
             (PatientChatPage.setInput "I'm okay, a bit tired."
                (PatientChatPage.settle "09:00" PatientChatPage.initialState))))))
  = PatientChatPage.QUESTIONNAIRE.
Proof.
  set (s1 := PatientChatPage.settle "09:00" PatientChatPage.initialState).
  set (s2 := PatientChatPage.settle "09:01" (PatientChatPage.setInput "I'm okay, a bit tired." s1)).
  assert (R : PatientChatPage.reachable s2).
  { apply (PatientChatPage.reachable_step "09:01" (PatientChatPage.Change "I'm okay, a bit tired.") s1);
      [| reflexivity].
    apply (PatientChatPage.reachable_step "09:00" PatientChatPage.Render PatientChatPage.initialState);
      [constructor | reflexivity]. }
  apply (proj2 (questionnaire_gate "09:02" PatientChatPage.SendClick s2 _ R) eq_refl eq_refl).
  split; [reflexivity | discriminate].
Defined.

Lemma no_patient_message_after_questionnaire_witness :
  PatientChatPage.step "09:03" PatientChatPage.SendClick
    (PatientChatPage.settle "09:02"
       (fst (PatientChatPage.handleSend "09:02"
          (PatientChatPage.settle "09:01"
             (PatientChatPage.setInput "I'm okay, a bit tired."
                (PatientChatPage.settle "09:00" PatientChatPage.initialState))))))
  = None.
Proof.
  set (s1 := PatientChatPage.settle "09:00" PatientChatPage.initialState).
  set (s2 := PatientChatPage.settle "09:01" (PatientChatPage.setInput "I'm okay, a bit tired." s1)).
  set (s3 := PatientChatPage.settle "09:02" (fst (PatientChatPage.handleSend "09:02" s2))).
  assert (R : PatientChatPage.reachable s3).
  { apply (PatientChatPage.reachable_step "09:02" PatientChatPage.SendClick s2); [| reflexivity].
    apply (PatientChatPage.reachable_step "09:01" (PatientChatPage.Change "I'm okay, a bit tired.") s1);
      [| reflexivity].
    apply (PatientChatPage.reachable_step "09:00" PatientChatPage.Render PatientChatPage.initialState);
      [constructor | reflexivity]. }
  apply (no_patient_message_after_questionnaire "09:03" s3 R (or_introl eq_refl)).
Defined.

Lemma empty_input_changes_nothing_witness :
  let draft := (" " ++ Js.noBreakSpace ++ Js.ideographicSpace)%string in
  Api.success
    (snd (Api.login (fun _ => None) 0 (Api.mkLoginForm "" "1990-01-01") (Api.initialStore 0)))
  = false /\
  PatientChatPage.handleSend "09:00" (PatientChatPage.setInput draft PatientChatPage.initialState)
  = (PatientChatPage.setInput draft PatientChatPage.initialState, PatientChatPage.Returned).
Proof.
  intros draft.
  pose proof (empty_input_changes_nothing (fun _ => None) 0
                (Api.mkLoginForm "" "1990-01-01") (Api.initialStore 0) "09:00"
                (PatientChatPage.setInput draft PatientChatPage.initialState)) as [Hl Hs].
  split.
  - rewrite (Hl (or_introl eq_refl)). reflexivity.
  - exact (Hs eq_refl).
Defined.

Lemma responses_bounded_witness :
  Core.nextQuestion Core.defaultConfig (Core.templateOf QuestionnaireApi.getQuestionnaire)
    [ ("q1-1", Core.freeText "7"); ("q1-2", Core.choice "No"); ("q1-3", Core.choice "Good") ]
    (Core.mkEmotion Core.neutral (1 # 2))
  = None.
Proof.
  apply (responses_bounded Core.defaultConfig (Core.templateOf QuestionnaireApi.getQuestionnaire)
           (Core.mkEmotion Core.neutral (1 # 2)) []).
  intros q Hq. simpl in Hq.
  destruct Hq as [<- | [<- | [<- | []]]]; discriminate.
Defined.

(* ===================================================================== *)
(** * Further properties of the code *)
(* ===================================================================== *)

(** ** Runs of the mock API service *)

Section ApiRunsFacts.

Import Api ApiRuns.

Variable Date_getTime : string -> option Z.

Lemma findConversation_wellFormed (st : Store) (cid : string) :
  wellFormed st -> findConversation st cid = mockConversationRef.
Proof.
  intros (_ & [Hc | Hc] & _); unfold findConversation; rewrite Hc; simpl.
  - reflexivity.
  - destruct (match objects st !! mockConversationRef with
              | Some c => bool_decide (conv_id c = cid)
              | None => false
              end); reflexivity.
Qed.

Lemma initialStore_wellFormed (t0 : Z) : wellFormed (initialStore t0).
Proof.
  split; [| split].
  - exists (mockConversation t0). split; reflexivity.
  - left; reflexivity.
  - constructor.
Qed.

Lemma perform_wellFormed (op : Op) (st : Store) :
  wellFormed st -> wellFormed (perform Date_getTime op st).
Proof.
  intros Hwf. pose proof Hwf as ((c & Hobj & Hid) & Hconv & Htim).
  destruct op; simpl.
  - unfold login. destruct (Js.falsy _ || Js.falsy _); simpl; [exact Hwf |].
    split; [eauto | split; assumption].
  - split; [eauto | split; assumption].
  - unfold updatePatientHealthData. destruct (currentPatient st); simpl; [| exact Hwf].
    split; [eauto | split; assumption].
  - split; [eauto | split; [| assumption]]. simpl.
    destruct Hconv as [-> | ->]; simpl; right; reflexivity.
  - unfold sendMessage; simpl. rewrite (findConversation_wellFormed st _ Hwf).
    split; [| split; [assumption |]].
    + rewrite Hobj. simpl. eexists. split; [reflexivity | exact Hid].
    + apply Forall_app. split; [assumption |]. repeat constructor.
  - unfold runTimer. destruct (timers st) as [| t rest] eqn:Ht; [exact Hwf |]. simpl.
    inversion Htim as [| ? ? Htarget Hrest]; subst.
    split; [| split; assumption].
    rewrite Htarget, Hobj. simpl. eexists. split; [reflexivity | exact Hid].
  - split; [eauto | split; assumption].
Qed.

Lemma performAll_wellFormed (ops : list Op) : forall st,
  wellFormed st -> wellFormed (performAll Date_getTime ops st).
Proof.
  induction ops as [| op ops IH]; intros st Hwf; simpl; [exact Hwf |].
  apply IH, perform_wellFormed, Hwf.
Qed.

(** X1.  There is one conversation.  Whatever has been called on the service
    before and whatever conversation id is given, [getConversation] answers
    with the object of [mockConversation] and [sendMessage] appends the
    message to that object; no second conversation object ever exists. *)
Theorem every_message_joins_the_shared_conversation (ops : list Op) (t0 now : Z)
  (conversationId content : string) :
  let st := performAll Date_getTime ops (initialStore t0) in
  let st' := fst (sendMessage now conversationId content st) in
  data (getConversation conversationId st) = Some mockConversationRef /\
  length (objects st') = 1%nat /\
  sharedMessages st' =
    sharedMessages st ++ [mkChatMessage (pretty now) user content now text None].
Proof.
  intros st st'.
  assert (Hwf : wellFormed st) by apply performAll_wellFormed, initialStore_wellFormed.
  pose proof Hwf as ((c & Hobj & Hid) & _).
  split; [| split].
  - simpl. rewrite (findConversation_wellFormed st _ Hwf). reflexivity.
  - subst st'. unfold sendMessage; simpl. rewrite length_alter, Hobj. reflexivity.
  - subst st'. unfold sharedMessages, sendMessage; simpl.
    rewrite (findConversation_wellFormed st _ Hwf), Hobj. reflexivity.
Qed.

Lemma countSentBy_app who l1 l2 :
  countSentBy who (l1 ++ l2) = (countSentBy who l1 + countSentBy who l2)%nat.
Proof. unfold countSentBy. rewrite List.filter_app, length_app. reflexivity. Qed.

Lemma countSentBy_one who m :
  countSentBy who [m] = if sentBy who m then 1%nat else 0%nat.
Proof. unfold countSentBy; simpl. destruct (sentBy who m); reflexivity. Qed.

Lemma perform_balance (op : Op) (st : Store) :
  wellFormed st ->
  (countSentBy ai (sharedMessages (perform Date_getTime op st))
   + length (timers (perform Date_getTime op st))
   + countSentBy user (sharedMessages st)
   = countSentBy ai (sharedMessages st) + length (timers st)
     + countSentBy user (sharedMessages (perform Date_getTime op st)))%nat /\
  countSentBy user (sharedMessages (perform Date_getTime op st))
  = (countSentBy user (sharedMessages st)
     + match op with SendMessage _ _ _ => 1 | _ => 0 end)%nat.
Proof.
  intros Hwf. pose proof Hwf as ((c & Hobj & Hid) & Hconv & Htim).
  destruct op; simpl.
  - unfold login, sharedMessages. destruct (Js.falsy _ || Js.falsy _); simpl; count_arith.
  - unfold sharedMessages; simpl; count_arith.
  - unfold updatePatientHealthData, sharedMessages.
    destruct (currentPatient st); simpl; count_arith.
  - unfold sharedMessages; simpl; count_arith.
  - unfold sendMessage, sharedMessages; simpl.
    rewrite (findConversation_wellFormed st _ Hwf), Hobj. simpl.
    rewrite !countSentBy_app, length_app, !countSentBy_one. simpl. count_arith.
  - unfold runTimer. destruct (timers st) as [| t rest] eqn:Ht; [rewrite ?Ht; simpl; count_arith |].
    inversion Htim as [| ? ? Htarget Hrest]; subst.
    unfold sharedMessages; simpl. rewrite Htarget, Hobj. simpl.
    rewrite !countSentBy_app, !countSentBy_one. simpl. count_arith.
  - unfold sharedMessages; simpl; count_arith.
Qed.

Lemma performAll_balance (ops : list Op) : forall st,
  wellFormed st ->
  (countSentBy ai (sharedMessages (performAll Date_getTime ops st))
   + length (timers (performAll Date_getTime ops st))
   + countSentBy user (sharedMessages st)
   = countSentBy ai (sharedMessages st) + length (timers st)
     + countSentBy user (sharedMessages (performAll Date_getTime ops st)))%nat /\
  countSentBy user (sharedMessages (performAll Date_getTime ops st))
  = (countSentBy user (sharedMessages st) + sends ops)%nat.
Proof.
  induction ops as [| op ops IH]; intros st Hwf; simpl; [split; lia |].
  destruct (perform_balance op st Hwf) as [H1 H2].
  destruct (IH _ (perform_wellFormed op st Hwf)) as [H3 H4].
  revert H1 H2 H3 H4.
  generalize (performAll Date_getTime ops (perform Date_getTime op st)).
  generalize (perform Date_getTime op st).
  intros st1 st2 H1 H2 H3 H4. destruct op; count_arith.
Qed.

(** X2.  Every message sent gets one reply, no more and no less: at any
    point of a run the conversation holds the two mock messages of the
    patient and one more for each [sendMessage], and the replies in it
    together with the replies still scheduled are the three mock ones and
    one for each [sendMessage]. *)
Theorem one_reply_per_message (ops : list Op) (t0 : Z) :
  let st := performAll Date_getTime ops (initialStore t0) in
  countSentBy user (sharedMessages st) = (2 + sends ops)%nat /\
  (countSentBy ai (sharedMessages st) + length (timers st) = 3 + sends ops)%nat.
Proof.
  intros st.
  destruct (performAll_balance ops (initialStore t0) (initialStore_wellFormed t0))
    as [H1 H2].
  fold st in H1, H2.
  change (countSentBy user (sharedMessages (initialStore t0))) with 2%nat in *.
  change (countSentBy ai (sharedMessages (initialStore t0))) with 3%nat in *.
  simpl in H1. lia.
Qed.

Lemma perform_alerts (op : Op) (st : Store) :
  alerts (perform Date_getTime op st) =
    match alerts st, op with
    | [], GetAlerts now => [fatigueAlert now]
    | _, _ => alerts st
    end.
Proof.
  destruct op; simpl.
  - unfold login. destruct (_ || _); simpl; destruct (alerts st); reflexivity.
  - destruct (alerts st); reflexivity.
  - unfold updatePatientHealthData. destruct (currentPatient st); simpl;
      destruct (alerts st); reflexivity.
  - destruct (alerts st); reflexivity.
  - destruct (alerts st); reflexivity.
  - unfold runTimer. destruct (timers st); simpl; destruct (alerts st); reflexivity.
  - destruct (alerts st); reflexivity.
Qed.

Lemma performAll_alerts (ops : list Op) : forall st,
  alerts (performAll Date_getTime ops st) =
    match alerts st with
    | [] => match firstGetAlerts ops with
            | Some now => [fatigueAlert now]
            | None => []
            end
    | _ :: _ => alerts st
    end.
Proof.
  induction ops as [| op ops IH]; intros st.
  - simpl. destruct (alerts st); reflexivity.
  - change (performAll Date_getTime (op :: ops) st)
      with (performAll Date_getTime ops (perform Date_getTime op st)).
    rewrite IH, perform_alerts.
    destruct (alerts st) as [| a l]; [| destruct op; reflexivity].
    destruct op; reflexivity.
Qed.

(** X3.  The alert list is made by the first [getAlerts] and never again: whatever
    is called later and whenever, the service holds the one fatigue alert
    stamped an hour before that first call. *)
Theorem alert_keeps_first_timestamp (ops : list Op) (t0 : Z) :
  alerts (performAll Date_getTime ops (initialStore t0)) =
    match firstGetAlerts ops with
    | Some now => [fatigueAlert now]
    | None => []
    end.
Proof. rewrite performAll_alerts. reflexivity. Qed.

Lemma responses_NoDup : NoDup responses.
Proof. apply (bool_decide_unpack _). vm_compute. reflexivity. Qed.

Lemma Qfloor_bucket (x : Q) (k : Z) :
  Qfloor x = k <-> (inject_Z k <= x /\ x < inject_Z (k + 1))%Q.
Proof.
  split.
  - intros <-. split; [apply Qfloor_le | apply Qlt_floor].
  - intros [Hlo Hhi].
    assert (k <= Qfloor x) by (rewrite <- (Qfloor_Z k); apply Qfloor_resp_le; exact Hlo).
    assert (Qfloor x < k + 1).
    { rewrite Zlt_Qlt. eapply Qle_lt_trans; [apply Qfloor_le | exact Hhi]. }
    lia.
Qed.

(** X4.  Each of the eight replies has its eighth of the range of
    [Math.random()]: the k-th reply is given exactly when the draw lies in
    [k/8, (k+1)/8). *)
Theorem reply_bucket (random : Q) (userMessage : string) (k : nat) :
  (0 <= random)%Q -> (random < 1)%Q -> (k < 8)%nat ->
  generateAIResponse random userMessage = nth k responses EmptyString <->
  (inject_Z (Z.of_nat k) <= random * 8 /\ random * 8 < inject_Z (Z.of_nat k + 1))%Q.
Proof.
  intros H0 H1 Hk.
  pose proof (responses_index random H0 H1) as Hi.
  assert (Hlo : (0 <= Qfloor (random * inject_Z (Z.of_nat (length responses))))%Z).
  { change 0%Z with (Qfloor 0). apply Qfloor_resp_le.
    apply Qmult_le_0_compat; [exact H0 | discriminate]. }
  unfold generateAIResponse.
  change (random * 8)%Q with (random * inject_Z (Z.of_nat (length responses)))%Q.
  rewrite <- Qfloor_bucket. split.
  - intros E.
    assert (Z.to_nat (Qfloor (random * inject_Z (Z.of_nat (length responses)))) = k).
    { apply (proj1 (List.NoDup_nth responses EmptyString)
               (proj1 (NoDup_ListNoDup _) responses_NoDup) _ _ Hi Hk E). }
    lia.
  - intros ->. rewrite Nat2Z.id. reflexivity.
Qed.

(** X5.  Ids are clock readings in decimal: two messages of patients get the same
    id exactly when they were made at the same millisecond, and the reply
    made at [now] gets the id of a message a patient sends one millisecond
    later. *)
Theorem message_ids_are_clock_readings (now1 now2 : Z) (conversationId1 conversationId2
  content1 content2 : string) (random : Q) (st1 st2 : Store) (t : Api.Timer)
  (m1 m2 : ChatMessage) :
  data (snd (sendMessage now1 conversationId1 content1 st1)) = Some m1 ->
  data (snd (sendMessage now2 conversationId2 content2 st2)) = Some m2 ->
  (msg_id m1 = msg_id m2 <-> now1 = now2) /\
  (msg_id (aiResponseOf now1 random t) = msg_id m2 <-> now2 = now1 + 1).
Proof.
  simpl. intros [= <-] [= <-]. simpl. split; split.
  - apply pretty_Z_inj.
  - intros ->. reflexivity.
  - intros E. apply pretty_Z_inj in E. lia.
  - intros ->. reflexivity.
Qed.

(** X6.  Logging in, asking for the patient and logging out: the patient of a
    session has the id "1", the name and the date of birth that were
    submitted, the avatar of the login, the age computed from the date of
    birth, and in every other field what [mockPatient] has; after [logout]
    there is no patient any more, while conversations, pending replies and
    alerts stay. *)
Theorem session_round_trip (now : Z) (credentials : LoginForm) (st : Store) :
  form_name credentials <> "" -> form_dateOfBirth credentials <> "" ->
  let st1 := fst (login Date_getTime now credentials st) in
  let st2 := fst (logout st1) in
  getCurrentPatient st1 =
    mkApiResponse true
      (Some {| id := "1";
               name := form_name credentials;
               dateOfBirth := form_dateOfBirth credentials;
               email := email mockPatient;
               avatar := Some loginAvatar;
               age := ageAt now (Date_getTime (form_dateOfBirth credentials));
               gender := gender mockPatient;
               location := location mockPatient;
               height := height mockPatient;
               weight := weight mockPatient;
               bmi := bmi mockPatient;
               bloodType := bloodType mockPatient;
               activityLevel := activityLevel mockPatient;
               dietaryPreferences := dietaryPreferences mockPatient;
               sleepHours := sleepHours mockPatient;
               stressLevel := stressLevel mockPatient;
               allergies := allergies mockPatient;
               chronicConditions := chronicConditions mockPatient;
               medications := medications mockPatient |})
      None None /\
  getCurrentPatient st2
    = mkApiResponse false None (Some "No patient data available") None /\
  currentUser st2 = None /\
  conversations st2 = conversations st /\ objects st2 = objects st /\
  timers st2 = timers st /\ alerts st2 = alerts st.
Proof.
  intros Hn Hd st1 st2. subst st1 st2. unfold login.
  destruct (Js.falsy (form_name credentials)) eqn:En.
  { apply falsy_true_iff in En. contradiction. }
  destruct (Js.falsy (form_dateOfBirth credentials)) eqn:Ed.
  { apply falsy_true_iff in Ed. contradiction. }
  simpl. repeat split; reflexivity.
Qed.

(** X7.  [updatePatientHealthData]: without a patient it fails and changes
    nothing; with one, the identity of the patient, the age and the BMI are
    kept (the BMI is not recomputed from the new height and weight), and of
    two updates in a row only the second one is left. *)
Theorem health_update_last_write_wins (h1 h2 : HealthForm) (st : Store) :
  updatePatientHealthData h2 (fst (updatePatientHealthData h1 st))
    = updatePatientHealthData h2 st /\
  match currentPatient st with
  | None =>
      updatePatientHealthData h1 st
      = (st, mkApiResponse false None (Some "No patient data available") None)
  | Some p =>
      exists p',
        data (snd (updatePatientHealthData h1 st)) = Some p' /\
        currentPatient (fst (updatePatientHealthData h1 st)) = Some p' /\
        currentUser (fst (updatePatientHealthData h1 st)) = currentUser st /\
        id p' = id p /\ name p' = name p /\ dateOfBirth p' = dateOfBirth p /\
        age p' = age p /\ bmi p' = bmi p /\
        height p' = form_height h1 /\ weight p' = form_weight h1
  end.
Proof.
  unfold updatePatientHealthData.
  destruct (currentPatient st) as [p |] eqn:Ep; simpl.
  - split; [reflexivity |]. eexists. repeat split; reflexivity.
  - rewrite Ep. split; reflexivity.
Qed.

(** X8.  A login starts from [mockPatient] again: health data entered before it,
    in this session or an earlier one, is gone. *)
Theorem login_discards_health_data (now : Z) (credentials : LoginForm)
  (healthData : HealthForm) (st : Store) :
  form_name credentials <> "" -> form_dateOfBirth credentials <> "" ->
  login Date_getTime now credentials (fst (updatePatientHealthData healthData st))
  = login Date_getTime now credentials st.
Proof.
  intros Hn Hd. unfold login.
  destruct (Js.falsy (form_name credentials)) eqn:En.
  { apply falsy_true_iff in En. contradiction. }
  destruct (Js.falsy (form_dateOfBirth credentials)) eqn:Ed.
  { apply falsy_true_iff in Ed. contradiction. }
  simpl. unfold updatePatientHealthData.
  destruct (currentPatient st); reflexivity.
Qed.

End ApiRunsFacts.

(** ** The authentication context and the routes *)

Section AuthFacts.

Import AuthContext.

Lemma authReducer_consistent (state : AuthState) (action : AuthAction) :
  (isAuthenticated state = true <-> is_Some (user state)) /\
  (isAuthenticated state = true -> is_Some (patient state)) /\
  (isLoading state = true -> error state = None) ->
  (isAuthenticated (authReducer state action) = true
   <-> is_Some (user (authReducer state action))) /\
  (isAuthenticated (authReducer state action) = true
   -> is_Some (patient (authReducer state action))) /\
  (isLoading (authReducer state action) = true -> error (authReducer state action) = None).
Proof.
  intros (Hu & Hp & Hl).
  destruct action; simpl; repeat split; eauto; try tauto; try discriminate;
    try (intros [? [=]]).
Qed.

Lemma dispatchAll_consistent (actions : list AuthAction) : forall state,
  (isAuthenticated state = true <-> is_Some (user state)) /\
  (isAuthenticated state = true -> is_Some (patient state)) /\
  (isLoading state = true -> error state = None) ->
  (isAuthenticated (dispatchAll actions state) = true
   <-> is_Some (user (dispatchAll actions state))) /\
  (isAuthenticated (dispatchAll actions state) = true
   -> is_Some (patient (dispatchAll actions state))) /\
  (isLoading (dispatchAll actions state) = true -> error (dispatchAll actions state) = None).
Proof.
  induction actions as [| a actions IH]; intros state H; [exact H |].
  apply (IH (authReducer state a)), authReducer_consistent, H.
Qed.

Lemma initialState_consistent :
  (isAuthenticated initialState = true <-> is_Some (user initialState)) /\
  (isAuthenticated initialState = true -> is_Some (patient initialState)) /\
  (isLoading initialState = true -> error initialState = None).
Proof. simpl. repeat split; try discriminate. intros [? [=]]. Qed.

(** X9.  Whatever is dispatched, in whatever order: the context says
    authenticated exactly when it holds a user, an authenticated context
    holds a patient, and no error is kept while a login is under way. *)
Theorem authenticated_iff_user (actions : list AuthAction) :
  let state := dispatchAll actions initialState in
  (isAuthenticated state = true <-> is_Some (user state)) /\
  (isAuthenticated state = true -> is_Some (patient state)) /\
  (isLoading state = true -> error state = None).
Proof. exact (dispatchAll_consistent actions initialState initialState_consistent). Qed.

(** X10.  A login that fails leaves the session as it was, whatever the
    state it started from: user, patient and [isAuthenticated] are kept,
    nothing is loading any more and the error is there to show.  When
    nothing was loading and no error was set before the attempt, clearing
    the error gives back the very state from before it. *)
Theorem failed_login_round_trip (payload : string) (state : AuthState) :
  let failed := dispatchAll [LOGIN_START; LOGIN_FAILURE payload] state in
  user failed = user state /\ patient failed = patient state /\
  isAuthenticated failed = isAuthenticated state /\
  isLoading failed = false /\ error failed = Some payload /\
  (isLoading state = false -> error state = None ->
   authReducer failed CLEAR_ERROR = state).
Proof.
  destruct state as [u p a l e]; simpl.
  repeat split; try reflexivity. intros -> ->. reflexivity.
Qed.

(** X11.  [checkAuth] on the answer of the service of [services/api.ts]: after a
    login that went through it recovers the user that login returned, with
    the patient of the service, and after a logout it changes nothing. *)
Theorem checkAuth_restores_session (Date_getTime : string -> option Z) (now : Z)
  (credentials : Api.LoginForm) (st : Api.Store) (state : AuthState) :
  let r := Api.login Date_getTime now credentials st in
  Api.success (snd r) = true ->
  let state' := checkAuth (Api.getCurrentPatient (fst r)) state in
  user state' = Api.data (snd r) /\
  patient state' = Api.currentPatient (fst r) /\
  isAuthenticated state' = true /\ isLoading state' = false /\ error state' = None /\
  checkAuth (Api.getCurrentPatient (fst (Api.logout (fst r)))) state' = state'.
Proof.
  unfold Api.login. destruct (_ || _); simpl; [discriminate |].
  intros _. repeat split; reflexivity.
Qed.

End AuthFacts.

Section AppFacts.

Import App.

Lemma screen_protected (isAuthenticated isLoading : bool) (p : Path) :
  screen isAuthenticated isLoading p = dashboardPage \/
  screen isAuthenticated isLoading p = chatPage ->
  isAuthenticated = true /\ isLoading = false.
Proof.
  destruct p, isAuthenticated, isLoading; cbn; intros [H | H]; try discriminate;
    split; reflexivity.
Qed.

(** X12.  What the routes put on the screen: never a redirect left over; a
    protected page exactly for its own path with the user authenticated
    and nothing loading; the loading screen exactly for a protected path
    while loading; the welcome page in all other cases. *)
Theorem screen_cases (isAuthenticated isLoading : bool) (p : Path) :
  (forall to, screen isAuthenticated isLoading p <> navigateTo to) /\
  (screen isAuthenticated isLoading p = dashboardPage
   <-> p = dashboardPath /\ isAuthenticated = true /\ isLoading = false) /\
  (screen isAuthenticated isLoading p = chatPage
   <-> p = chatPath /\ isAuthenticated = true /\ isLoading = false) /\
  (screen isAuthenticated isLoading p = loadingScreen
   <-> (p = dashboardPath \/ p = chatPath) /\ isLoading = true) /\
  (screen isAuthenticated isLoading p = welcomePage
   <-> p = rootPath \/ p = otherPath \/ (isAuthenticated = false /\ isLoading = false)).
Proof.
  destruct p, isAuthenticated, isLoading; cbn;
    repeat split; try discriminate; try reflexivity; try tauto;
    try (intros [? ?]; discriminate);
    try (intros (? & ? & ?); discriminate);
    try (intros [[? | ?] ?]; discriminate);
    try (intros [? | [? | [? ?]]]; discriminate);
    intuition discriminate.
Qed.

(** X13.  The routes on the state of the authentication context of
    [AuthContext.tsx], whose [isAuthenticated] and [isLoading] they read
    through [useAuth()]: whatever has been dispatched, a protected page is
    on the screen only with a user and a patient in the context, then with
    the header; and after [LOGOUT] every path, protected or not, shows the
    welcome page, without the header. *)
Theorem protected_page_has_user (actions : list AuthContext.AuthAction) (p : Path) :
  let state := AuthContext.dispatchAll actions AuthContext.initialState in
  let shown := screen (AuthContext.isAuthenticated state) (AuthContext.isLoading state) p in
  let out := AuthContext.authReducer state AuthContext.LOGOUT in
  (shown = dashboardPage \/ shown = chatPage ->
   is_Some (AuthContext.user state) /\ is_Some (AuthContext.patient state) /\
   headerShown (AuthContext.isAuthenticated state) = true) /\
  (forall q : Path,
     screen (AuthContext.isAuthenticated out) (AuthContext.isLoading out) q = welcomePage) /\
  headerShown (AuthContext.isAuthenticated out) = false.
Proof.
  intros state shown out. split; [| split; [intros q; destruct q; reflexivity | reflexivity]].
  intros H.
  destruct (dispatchAll_consistent actions AuthContext.initialState initialState_consistent)
    as (Hu & Hp & _).
  destruct (screen_protected _ _ _ H) as [Ha _].
  split; [apply Hu, Ha |]. split; [apply Hp, Ha | exact Ha].
Qed.

End AppFacts.

(** ** The chat page of the service, the welcome page and the dashboard *)

Section ChatPageFacts.

Import Api ApiRuns ChatPage.

Lemma wellFormed_read (st : Store) (v : ConversationValue) (c : Conversation) :
  wellFormed st -> read st v = Some c ->
  match v with
  | Shared object => object = mockConversationRef /\ objects st = [c]
  | Copy c0 => c0 = c
  end.
Proof.
  intros ((c0 & Ho & _) & _) Hr. destruct v as [object | c1]; simpl in Hr.
  - rewrite Ho in Hr. destruct object as [| n]; simpl in Hr.
    + injection Hr as <-. split; [reflexivity | exact Ho].
    + destruct n; discriminate.
  - injection Hr as <-. reflexivity.
Qed.

Lemma sendMessage_wellFormed (now : Z) (conversationId content : string) (st : Store)
  (c : Conversation) :
  wellFormed st -> objects st = [c] ->
  objects (fst (sendMessage now conversationId content st))
  = [pushMessage (mkChatMessage (pretty now) user content now text None) now c].
Proof.
  intros Hwf Ho. unfold sendMessage; simpl.
  rewrite (findConversation_wellFormed st conversationId Hwf), Ho. reflexivity.
Qed.

(** X14.  The first render on a store that runs of the service can produce: the
    page takes the conversation object of the service itself, shows its
    messages and stops loading; on a page just opened the draft is empty
    and the Send button disabled. *)
Theorem fetchData_takes_the_shared_conversation (s : State) (st : Store) :
  wellFormed st ->
  let s' := fst (fetchData s st) in
  let st' := snd (fetchData s st) in
  conversation s' = Some (Shared mockConversationRef) /\
  shownMessages st' s' = sharedMessages st /\
  healthMetrics s' = Some mockHealthMetrics /\
  isLoading s' = false /\
  conversations st' = [mockConversationRef] /\ objects st' = objects st /\
  sendDisabled (fst (fetchData initialState st)) = true.
Proof.
  intros (Ho & [Hc | Hc] & Ht); unfold fetchData, getConversations, shownMessages,
    sharedMessages; simpl; rewrite Hc; simpl; repeat split; reflexivity.
Qed.

Lemma handleSendMessage_eq (now : Z) (s : State) (st : Store) (v : ConversationValue)
  (c : Conversation) :
  Js.falsy (Js.trim (newMessage s)) = false ->
  conversation s = Some v -> read st v = Some c ->
  handleSendMessage now s st =
    (handleSendMessageSent now
       (mkApiResponse true
          (Some (mkChatMessage (pretty now) user (newMessage s) now text None)) None None)
       (fst (sendMessage now (conv_id c) (newMessage s) st))
       (mkState (conversation s) (healthMetrics s) "" (isLoading s) true),
     fst (sendMessage now (conv_id c) (newMessage s) st)).
Proof.
  intros Hblank Hv Hr. unfold handleSendMessage, handleSendMessageBegin.
  rewrite Hblank, Hv, Hr. reflexivity.
Qed.

(** X15.  Sending from the page.  While the page holds the object of the service,
    the message the service has pushed onto it is appended once more by the
    update of the page, so it is on the screen twice although the
    conversation has it once; while the page holds a copy of its own making
    the message is on the screen once. *)
Theorem sent_message_shown_twice (now : Z) (s : State) (st : Store)
  (v : ConversationValue) :
  wellFormed st ->
  conversation s = Some v -> is_Some (read st v) -> sendDisabled s = false ->
  let s' := fst (handleSendMessage now s st) in
  let st' := snd (handleSendMessage now s st) in
  let m := mkChatMessage (pretty now) user (newMessage s) now text None in
  shownMessages st' s' =
    shownMessages st s ++ match v with Shared _ => [m; m] | Copy _ => [m] end /\
  sharedMessages st' = sharedMessages st ++ [m] /\
  newMessage s' = "" /\ isSending s' = false.
Proof.
  intros Hwf Hv [c Hr] Hd.
  pose proof (wellFormed_read st v c Hwf Hr) as Hshape.
  unfold sendDisabled in Hd. apply orb_false_iff in Hd as [Hblank _].
  destruct (proj1 Hwf) as (c0 & Ho & Hid).
  rewrite (handleSendMessage_eq now s st v c Hblank Hv Hr).
  pose proof (sendMessage_wellFormed now (conv_id c) (newMessage s) st c0 Hwf Ho) as Ho1.
  revert Ho1. generalize (fst (sendMessage now (conv_id c) (newMessage s) st)).
  intros st1 Ho1. cbn [fst snd].
  unfold handleSendMessageSent, shownMessages, sharedMessages.
  cbn [success data conversation newMessage isSending]. rewrite Hv.
  destruct v as [object | c1].
  - destruct Hshape as [-> Hc]. rewrite Ho in Hc. injection Hc as ->.
    cbn [read]. rewrite Ho1, Ho. simpl. rewrite <- app_assoc.
    repeat split; reflexivity.
  - subst c1. cbn [read]. rewrite Ho1, Ho. simpl. repeat split; reflexivity.
Qed.



End ChatPageFacts.

Section WelcomePageFacts.

Import Api WelcomePage.

Lemma trim_falsy (s : string) : Js.falsy (Js.trim s) = false -> Js.falsy s = false.
Proof. destruct s; [intros H; exact H | reflexivity]. Qed.

(** X17.  What the welcome page lets through, the service accepts: when the guard
    of [handleSubmit] passes, [login] succeeds whatever the store and the
    clock; and the Continue button is enabled exactly when nothing is
    loading and that guard passes. *)
Theorem page_guard_implies_service_validation (Date_getTime : string -> option Z)
  (now : Z) (formData : LoginForm) (st : Store) (isLoading : bool) :
  (submits formData = true ->
   success (snd (login Date_getTime now formData st)) = true) /\
  (submitDisabled isLoading formData = false
   <-> isLoading = false /\ submits formData = true).
Proof.
  unfold submits, submitDisabled, login. split.
  - intros H. apply negb_true_iff, orb_false_iff in H as [Hn Hd].
    rewrite (trim_falsy _ Hn), Hd. reflexivity.
  - destruct isLoading, (Js.falsy (Js.trim (form_name formData))),
      (Js.falsy (form_dateOfBirth formData)); simpl; intuition discriminate.
Qed.

End WelcomePageFacts.

Section DashboardFacts.

Import DashboardPage.

(** X18.  The capability badges of an agent card: what is shown and what the
    [+n] badge counts add up to the capabilities, and there is no badge
    exactly when all of them are shown. *)
Theorem capability_badge_counts_the_rest (capabilities : list string) :
  (length (shownCapabilities capabilities) + default 0 (moreBadge capabilities)
   = length capabilities)%nat /\
  (moreBadge capabilities = None <-> shownCapabilities capabilities = capabilities) /\
  (forall n, moreBadge capabilities = Some n ->
             (0 < n)%nat /\ drop 2 capabilities <> [] /\ length (drop 2 capabilities) = n).
Proof.
  unfold shownCapabilities, moreBadge.
  destruct capabilities as [| a [| b [| c l]]]; simpl; repeat split;
    try reflexivity; try discriminate; try lia.
  all: match goal with H : Some _ = Some _ |- _ => injection H as <- end; lia.
Qed.

End DashboardFacts.

(** ** Runs of the patient chat page *)

Section PageRunsFacts.

Import PatientChatPage PatientChatRuns.

(** Every event keeps the exchange to one message and one reply. *)
Lemma step_oneExchange now e s s' :
  invariant s -> oneExchange s -> step now e s = Some s' -> oneExchange s'.
Proof.
  intros Hinv Hone Hstep.
  destruct s as [c inp ld sh ans mt pr ps].
  unfold invariant in Hinv; unfold oneExchange in Hone; simpl in Hinv, Hone.
  destruct e; enabled Hstep.
  - (* Render *)
    destruct mt; [| discriminate]. injection Hstep as <-.
    destruct (Hinv eq_refl) as [-> Hrest]. rewrite settle_eq; unfold oneExchange; simpl.
    destruct sh; simpl.
    + destruct Hone as (g & u & rest & -> & Hg & Hu & Hr & Hn). simpl. eauto 10.
    + destruct Hrest as (-> & -> & -> & [[-> ->] | [t ->]]); simpl;
        (split; [reflexivity |]); (split; [| lia]); repeat constructor.
  - (* Change *)
    destruct mt; [| discriminate]. destruct sh; [discriminate |].
    destruct ld; [discriminate |]. simpl in Hstep. injection Hstep as <-.
    destruct (Hinv eq_refl) as [-> Hrest]. rewrite settle_eq; unfold oneExchange; simpl.
    destruct Hrest as (-> & -> & _ & [[-> ->] | [t ->]]); simpl;
      (split; [reflexivity |]); (split; [| lia]); repeat constructor.
  - (* SendClick *)
    destruct mt; [| discriminate]. destruct sh; [discriminate |].
    destruct ld; [discriminate |]. simpl in Hstep. injection Hstep as <-.
    destruct (Hinv eq_refl) as [-> Hrest].
    destruct Hrest as (-> & -> & _ & [[-> ->] | [t ->]]);
      unfold handleSend; simpl.
    + rewrite settle_eq; unfold oneExchange; simpl.
      split; [reflexivity |]. split; [| lia]. repeat constructor.
    + destruct (Js.falsy (Js.trim inp)) eqn:E; simpl; rewrite settle_eq; unfold oneExchange; simpl.
      * split; [reflexivity |]. split; [| lia]. repeat constructor.
      * do 3 eexists. split; [reflexivity |]. repeat split; simpl; auto.
  - (* ReplySettled *)
    destruct (0 <? pr)%nat eqn:Hpr; [| discriminate]. injection Hstep as <-.
    apply Nat.ltb_lt in Hpr.
    destruct mt.
    + destruct (Hinv eq_refl) as [-> Hrest].
      destruct sh; [| destruct Hrest as (-> & _); lia].
      destruct Hone as (g & u & rest & -> & Hg & Hu & Hr & Hn).
      destruct rest as [| r rest]; [| simpl in Hn; lia]. simpl in Hn.
      destruct reply; unfold handleSendResume; simpl; rewrite settle_eq; unfold oneExchange; simpl;
        do 3 eexists; (split; [reflexivity |]); repeat split; simpl; auto;
        try lia; repeat constructor.
    + destruct Hone as [Hb Hn].
      destruct c as [| m c]; [| simpl in Hn; lia].
      rewrite settle_unmounted by (destruct reply; reflexivity).
      destruct reply; unfold oneExchange; simpl; split; try lia; repeat constructor.
  - (* QuestionnaireSubmit *)
    destruct mt; [| discriminate]. destruct sh; [| discriminate].
    destruct ans; [discriminate |]. simpl in Hstep. injection Hstep as <-.
    destruct Hone as (g & u & rest & -> & Hg & Hu & Hr & Hn).
    unfold handleQuestionnaireSubmit; simpl. rewrite settle_eq; unfold oneExchange; simpl. eauto 10.
  - (* SaveSettled *)
    destruct ps as [| a ps]; [discriminate |]. injection Hstep as <-.
    unfold handleQuestionnaireSubmitResume; simpl.
    rewrite settle_unmounted by reflexivity. unfold oneExchange; simpl.
    split; [constructor |].
    destruct mt; [destruct sh |].
    + destruct Hone as (g & u & rest & -> & Hg & Hu & Hr & Hn). lia.
    + destruct Hone as (-> & _). lia.
    + destruct Hone as [_ Hn]. lia.
Qed.

Lemma reachable_oneExchange s : reachable s -> oneExchange s.
Proof.
  induction 1 as [| now e s s' Hr IH Hstep].
  - simpl. repeat split; [constructor | simpl; lia].
  - eapply step_oneExchange; [apply reachable_invariant | |]; eassumption.
Qed.

Lemma step_repliedWhenIdle now e s s' :
  invariant s -> oneExchange s -> repliedWhenIdle s -> step now e s = Some s' ->
  repliedWhenIdle s'.
Proof.
  intros Hinv Hone Hidle Hstep.
  destruct s as [c inp ld sh ans mt pr ps].
  unfold invariant in Hinv; unfold oneExchange in Hone; unfold repliedWhenIdle in Hidle;
    simpl in Hinv, Hone, Hidle.
  destruct e; enabled Hstep.
  - destruct mt; [| discriminate]. injection Hstep as <-.
    destruct (Hinv eq_refl) as [-> Hrest]. rewrite settle_eq; unfold repliedWhenIdle; simpl.
    destruct sh; simpl.
    + destruct Hone as (g & u & rest & -> & _). simpl. intros _ _ Hl. apply Hidle; auto.
    + destruct Hrest as (-> & -> & -> & [[-> ->] | [t ->]]); simpl; discriminate.
  - destruct mt; [| discriminate]. destruct sh; [discriminate |].
    destruct ld; [discriminate |]. simpl in Hstep. injection Hstep as <-.
    destruct (Hinv eq_refl) as [-> Hrest]. rewrite settle_eq; unfold repliedWhenIdle; simpl.
    destruct Hrest as (-> & -> & _ & [[-> ->] | [t ->]]); simpl; discriminate.
  - destruct mt; [| discriminate]. destruct sh; [discriminate |].
    destruct ld; [discriminate |]. simpl in Hstep. injection Hstep as <-.
    destruct (Hinv eq_refl) as [-> Hrest].
    destruct Hrest as (-> & -> & _ & [[-> ->] | [t ->]]);
      unfold handleSend; simpl.
    + rewrite settle_eq; unfold repliedWhenIdle; simpl. discriminate.
    + destruct (Js.falsy (Js.trim inp)) eqn:E; simpl; rewrite settle_eq; unfold repliedWhenIdle; simpl; discriminate.
  - destruct (0 <? pr)%nat eqn:Hpr; [| discriminate]. injection Hstep as <-.
    apply Nat.ltb_lt in Hpr.
    destruct mt.
    + destruct (Hinv eq_refl) as [-> Hrest].
      destruct sh; [| destruct Hrest as (-> & _); lia].
      destruct Hone as (g & u & rest & -> & Hg & Hu & Hr & Hn).
      destruct rest as [| r rest]; [| simpl in Hn; lia]. simpl in Hn.
      destruct reply; unfold handleSendResume; simpl; rewrite settle_eq; unfold repliedWhenIdle; simpl.
      * intros _ _ _. split; [reflexivity | lia].
      * intros _ _ Hl. destruct (Hidle eq_refl eq_refl Hl) as [_ ->]. lia.
    + rewrite settle_unmounted by (destruct reply; reflexivity).
      destruct reply; unfold repliedWhenIdle; simpl; discriminate.
  - destruct mt; [| discriminate]. destruct sh; [| discriminate].
    destruct ans; [discriminate |]. simpl in Hstep. injection Hstep as <-.
    unfold handleQuestionnaireSubmit; simpl. rewrite settle_eq; unfold repliedWhenIdle; simpl. discriminate.
  - destruct ps as [| a ps]; [discriminate |]. injection Hstep as <-.
    unfold handleQuestionnaireSubmitResume; simpl.
    rewrite settle_unmounted by reflexivity. unfold repliedWhenIdle; simpl. discriminate.
Qed.

Lemma reachable_repliedWhenIdle s : reachable s -> repliedWhenIdle s.
Proof.
  induction 1 as [| now e s s' Hr IH Hstep].
  - intros _ H. discriminate H.
  - eapply step_repliedWhenIdle;
      [apply reachable_invariant | apply reachable_oneExchange | |]; eassumption.
Qed.

Lemma fromBot_not_patient (l : list Message) :
  Forall fromBot l -> List.filter isPatient l = [].
Proof.
  induction 1 as [| m l Hm _ IH]; [reflexivity |].
  simpl. unfold isPatient. rewrite Hm. exact IH.
Qed.

(** X19.  One stay on the page, from its mount on an empty chat, is one
    exchange: at any moment the chat holds at most one message of the
    patient, and with the replies still awaited it counts at most three
    messages, of which at most one is awaited. *)
Theorem at_most_one_exchange (s : State) :
  reachable s ->
  (length (List.filter isPatient (chat s)) <= 1)%nat /\
  (length (chat s) + pendingReplies s <= 3)%nat /\
  (pendingReplies s <= 1)%nat.
Proof.
  intros Hr. pose proof (reachable_oneExchange s Hr) as Hone.
  unfold oneExchange in Hone.
  destruct (mounted s); [destruct (showQuestionnaire s) |].
  - destruct Hone as (g & u & rest & -> & Hg & Hu & Hrest & Hn).
    pose proof (fromBot_not_patient _ Hrest) as Hf.
    destruct g as [[] ? ?], u as [[] ? ?]; try discriminate.
    simpl. rewrite Hf. simpl. lia.
  - destruct Hone as (-> & Hb & Hn). rewrite (fromBot_not_patient _ Hb). simpl. lia.
  - destruct Hone as (Hb & Hn). rewrite (fromBot_not_patient _ Hb). simpl. lia.
Qed.

(** X20.  The chat is emptied before the move to the summary, so the summary
    never shows what the patient wrote: its chat section is empty or holds
    the one reply that came in late, headed "Bot". *)
Theorem summary_has_no_patient_line (s : State) :
  reachable s -> mounted s = false ->
  Forall (fun line => fst line = "Bot") (SummaryPage.chatLines (chat s)) /\
  (length (SummaryPage.chatLines (chat s)) <= 1)%nat.
Proof.
  intros Hr Hm. pose proof (reachable_oneExchange s Hr) as Hone.
  unfold oneExchange in Hone. rewrite Hm in Hone. destruct Hone as [Hb Hn].
  unfold SummaryPage.chatLines. rewrite length_map. split; [| lia].
  apply Forall_map. eapply Forall_impl; [exact Hb |].
  intros m Hbot. simpl. unfold fromBot in Hbot. rewrite Hbot. reflexivity.
Qed.

(** X21.  Once the patient has written, the activity monitor goes off on the
    page only by the reply arriving: with the questionnaire on the screen
    and nothing loading, the chat is the greeting, the message and the
    reply, and no reply is awaited. *)
Theorem reply_ends_the_spinner (s : State) :
  reachable s -> mounted s = true -> showQuestionnaire s = true -> loading s = false ->
  (exists g u r, chat s = [g; u; r] /\ sender g = bot /\ sender u = user /\ sender r = bot) /\
  pendingReplies s = 0%nat.
Proof.
  intros Hr Hm Hs Hl.
  destruct (reachable_repliedWhenIdle s Hr Hm Hs Hl) as [Hlen Hp].
  pose proof (reachable_oneExchange s Hr) as Hone.
  unfold oneExchange in Hone. rewrite Hm, Hs in Hone.
  destruct Hone as (g & u & rest & Hc & Hg & Hu & Hrest & Hn).
  rewrite Hc in Hlen. simpl in Hlen.
  destruct rest as [| r [| r' rest]]; simpl in Hlen; try lia.
  split; [| exact Hp].
  exists g, u, r. inversion Hrest; subst. auto.
Qed.

End PageRunsFacts.

(** ** The reply to a message, and the reply that does not come *)

Section ReplyFacts.

Import PatientChatPage PatientChatRuns.




End ReplyFacts.

(** ** The further theorems at concrete inputs *)

Lemma reply_bucket_witness :
  Api.generateAIResponse (1 # 2) "I slept badly" = nth 4 Api.responses EmptyString.
Proof.
  apply (reply_bucket (1 # 2) "I slept badly" 4).
  - unfold Qle; simpl; lia.
  - unfold Qlt; simpl; lia.
  - lia.
  - split; [unfold Qle; simpl; lia | unfold Qlt; simpl; lia].
Defined.

Lemma message_ids_are_clock_readings_witness :
  Api.msg_id (Api.aiResponseOf 1000 0 (Api.mkTimer Api.mockConversationRef "I slept badly"))
  = Api.msg_id (Api.mkChatMessage (pretty 1001) Api.user "And I am tired" 1001 Api.text None).
Proof.
  apply (proj2 (message_ids_are_clock_readings 1000 1001 "1" "1" "I slept badly"
                  "And I am tired" 0 (Api.initialStore 0) (Api.initialStore 0)
                  (Api.mkTimer Api.mockConversationRef "I slept badly")
                  _ _ eq_refl eq_refl)).
  reflexivity.
Defined.

Lemma session_round_trip_witness :
  Api.success
    (Api.getCurrentPatient
       (fst (Api.logout
               (fst (Api.login (fun _ => None) 0 (Api.mkLoginForm "Mallory" "2001-02-03")
                       (Api.initialStore 0))))))
  = false.
Proof.
  destruct (session_round_trip (fun _ => None) 0 (Api.mkLoginForm "Mallory" "2001-02-03")
              (Api.initialStore 0)) as (_ & H & _); [discriminate | discriminate |].
  rewrite H. reflexivity.
Defined.

Lemma login_discards_health_data_witness :
  Api.bloodType <$>
    Api.currentPatient
      (fst (Api.login (fun _ => None) 2000 (Api.mkLoginForm "Mallory" "2001-02-03")
              (fst (Api.updatePatientHealthData
                      (Api.mkHealthForm "6'0" "180 lbs" "AB-" Api.high "Vegan" "6 hours" Api.high [] [] [])
                      (fst (Api.login (fun _ => None) 1000
                              (Api.mkLoginForm "Sophia Carter" "1993-05-15")
                              (Api.initialStore 0)))))))
  = Some (Api.bloodType Api.mockPatient).
Proof.
  rewrite (login_discards_health_data (fun _ => None) 2000
             (Api.mkLoginForm "Mallory" "2001-02-03")); [reflexivity | discriminate | discriminate].
Defined.

Lemma failed_login_round_trip_witness :
  let loggedIn :=
    AuthContext.dispatchAll
      [AuthContext.LOGIN_START;
       AuthContext.LOGIN_SUCCESS (Api.mkUser "1" "Mallory" "2001-02-03" None None)
         Api.mockPatient]
      AuthContext.initialState in
  AuthContext.dispatchAll
    [AuthContext.LOGIN_START; AuthContext.LOGIN_FAILURE "Login failed";
     AuthContext.CLEAR_ERROR]
    loggedIn
  = loggedIn /\
  AuthContext.isAuthenticated
    (AuthContext.dispatchAll
       [AuthContext.LOGIN_START; AuthContext.LOGIN_FAILURE "Login failed";
        AuthContext.LOGIN_START; AuthContext.LOGIN_FAILURE "Login failed"]
       loggedIn)
  = true.
Proof.
  intros loggedIn. split.
  - exact (proj2 (proj2 (proj2 (proj2 (proj2
             (failed_login_round_trip "Login failed" loggedIn))))) eq_refl eq_refl).
  - exact (proj1 (proj2 (proj2
             (failed_login_round_trip "Login failed"
                (AuthContext.dispatchAll
                   [AuthContext.LOGIN_START; AuthContext.LOGIN_FAILURE "Login failed"]
                   loggedIn))))).
Defined.

Lemma checkAuth_restores_session_witness :
  Api.user_name <$>
    AuthContext.user
      (AuthContext.checkAuth
         (Api.getCurrentPatient
            (fst (Api.login (fun _ => None) 0 (Api.mkLoginForm "Mallory" "2001-02-03")
                    (Api.initialStore 0))))
         AuthContext.initialState)
  = Some "Mallory".
Proof.
  rewrite (proj1 (checkAuth_restores_session (fun _ => None) 0
                    (Api.mkLoginForm "Mallory" "2001-02-03") (Api.initialStore 0)
                    AuthContext.initialState eq_refl)).
  reflexivity.
Defined.

Lemma protected_page_has_user_witness :
  is_Some
    (AuthContext.user
       (AuthContext.dispatchAll
          [AuthContext.LOGIN_START;
           AuthContext.LOGIN_SUCCESS
             (Api.mkUser "1" "Mallory" "2001-02-03" None None) Api.mockPatient]
          AuthContext.initialState)).
Proof.
  apply (proj1 (protected_page_has_user
                  [AuthContext.LOGIN_START;
                   AuthContext.LOGIN_SUCCESS
                     (Api.mkUser "1" "Mallory" "2001-02-03" None None) Api.mockPatient]
                  App.chatPath)).
  right. reflexivity.
Defined.

Lemma fetchData_takes_the_shared_conversation_witness :
  length
    (ChatPage.shownMessages
       (snd (ChatPage.fetchData ChatPage.initialState (Api.initialStore 0)))
       (fst (ChatPage.fetchData ChatPage.initialState (Api.initialStore 0))))
  = 5%nat.
Proof.
  rewrite (proj1 (proj2 (fetchData_takes_the_shared_conversation ChatPage.initialState
                           (Api.initialStore 0) (initialStore_wellFormed 0)))).
  reflexivity.
Defined.

Lemma sent_message_shown_twice_witness :
  let s :=
    ChatPage.mkState (Some (ChatPage.Shared Api.mockConversationRef)) None "I slept badly"
      false false in
  map Api.content
    (ChatPage.shownMessages
       (snd (ChatPage.handleSendMessage 1000 s (Api.initialStore 0)))
       (fst (ChatPage.handleSendMessage 1000 s (Api.initialStore 0))))
  = map Api.content (Api.mockMessages 0) ++ ["I slept badly"; "I slept badly"].
Proof.
  intros s.
  rewrite (proj1 (sent_message_shown_twice 1000 s (Api.initialStore 0)
                    (ChatPage.Shared Api.mockConversationRef)
                    (initialStore_wellFormed 0) eq_refl (mk_is_Some _ _ eq_refl) eq_refl)).
  reflexivity.
Defined.


Lemma at_most_one_exchange_witness :
  let s4 :=
    PatientChatPage.settle "09:03"
      (fst (PatientChatPage.handleSendResume "09:03" (Some "I am sorry to hear that.")
         (PatientChatPage.settle "09:02"
            (fst (PatientChatPage.handleSend "09:02"
               (PatientChatPage.settle "09:01"
                  (PatientChatPage.setInput "I'm okay, a bit tired."
                     (PatientChatPage.settle "09:00" PatientChatPage.initialState)))))))) in
  length (PatientChatPage.chat s4) = 3%nat /\
  (length (List.filter PatientChatPage.isPatient (PatientChatPage.chat s4)) <= 1)%nat /\
  (length (PatientChatPage.chat s4) + PatientChatPage.pendingReplies s4 <= 3)%nat.
Proof.
  set (s1 := PatientChatPage.settle "09:00" PatientChatPage.initialState).
  set (s2 := PatientChatPage.settle "09:01" (PatientChatPage.setInput "I'm okay, a bit tired." s1)).
  set (s3 := PatientChatPage.settle "09:02" (fst (PatientChatPage.handleSend "09:02" s2))).
  intros s4.
  assert (R : PatientChatPage.reachable s4).
  { apply (PatientChatPage.reachable_step "09:03"
             (PatientChatPage.ReplySettled (Some "I am sorry to hear that.")) s3);
      [| reflexivity].
    apply (PatientChatPage.reachable_step "09:02" PatientChatPage.SendClick s2); [| reflexivity].
    apply (PatientChatPage.reachable_step "09:01" (PatientChatPage.Change "I'm okay, a bit tired.") s1);
      [| reflexivity].
    apply (PatientChatPage.reachable_step "09:00" PatientChatPage.Render PatientChatPage.initialState);
      [constructor | reflexivity]. }
  split; [reflexivity |].
  pose proof (at_most_one_exchange s4 R) as (H1 & H2 & _). split; assumption.
Defined.

Lemma reply_ends_the_spinner_witness :
  PatientChatPage.pendingReplies
    (PatientChatPage.settle "09:03"
       (fst (PatientChatPage.handleSendResume "09:03" (Some "I am sorry to hear that.")
          (PatientChatPage.settle "09:02"
             (fst (PatientChatPage.handleSend "09:02"
                (PatientChatPage.settle "09:01"
                   (PatientChatPage.setInput "I'm okay, a bit tired."
                      (PatientChatPage.settle "09:00" PatientChatPage.initialState)))))))))
  = 0%nat.
Proof.
  set (s1 := PatientChatPage.settle "09:00" PatientChatPage.initialState).
  set (s2 := PatientChatPage.settle "09:01" (PatientChatPage.setInput "I'm okay, a bit tired." s1)).
  set (s3 := PatientChatPage.settle "09:02" (fst (PatientChatPage.handleSend "09:02" s2))).
  set (s4 := PatientChatPage.settle "09:03"
               (fst (PatientChatPage.handleSendResume "09:03"
                       (Some "I am sorry to hear that.") s3))).
  assert (R : PatientChatPage.reachable s4).
  { apply (PatientChatPage.reachable_step "09:03"
             (PatientChatPage.ReplySettled (Some "I am sorry to hear that.")) s3);
      [| reflexivity].
    apply (PatientChatPage.reachable_step "09:02" PatientChatPage.SendClick s2); [| reflexivity].
    apply (PatientChatPage.reachable_step "09:01" (PatientChatPage.Change "I'm okay, a bit tired.") s1);
      [| reflexivity].
    apply (PatientChatPage.reachable_step "09:00" PatientChatPage.Render PatientChatPage.initialState);
      [constructor | reflexivity]. }
  exact (proj2 (reply_ends_the_spinner s4 R eq_refl eq_refl eq_refl)).
Defined.

Lemma summary_has_no_patient_line_witness :
  (length
     (SummaryPage.chatLines
        (PatientChatPage.chat
           (PatientChatPage.settle "09:06"
              (fst (PatientChatPage.handleQuestionnaireSubmitResume
                 (PatientChatPage.settle "09:05"
                    (fst (PatientChatPage.handleQuestionnaireSubmit {[ "q1-1" := "7" ]}
                       (PatientChatPage.settle "09:02"
                          (fst (PatientChatPage.handleSend "09:02"
                             (PatientChatPage.settle "09:01"
                                (PatientChatPage.setInput "I'm okay, a bit tired."
                                   (PatientChatPage.settle "09:00"
                                      PatientChatPage.initialState)))))))))))))) <= 1)%nat.
Proof.
  set (s1 := PatientChatPage.settle "09:00" PatientChatPage.initialState).
  set (s2 := PatientChatPage.settle "09:01" (PatientChatPage.setInput "I'm okay, a bit tired." s1)).
  set (s3 := PatientChatPage.settle "09:02" (fst (PatientChatPage.handleSend "09:02" s2))).
  set (s4 := PatientChatPage.settle "09:05"
               (fst (PatientChatPage.handleQuestionnaireSubmit {[ "q1-1" := "7" ]} s3))).
  set (s5 := PatientChatPage.settle "09:06"
               (fst (PatientChatPage.handleQuestionnaireSubmitResume s4))).
  assert (R : PatientChatPage.reachable s5).
  { apply (PatientChatPage.reachable_step "09:06" PatientChatPage.SaveSettled s4);
      [| reflexivity].
    apply (PatientChatPage.reachable_step "09:05"
             (PatientChatPage.QuestionnaireSubmit {[ "q1-1" := "7" ]}) s3); [| reflexivity].
    apply (PatientChatPage.reachable_step "09:02" PatientChatPage.SendClick s2); [| reflexivity].
    apply (PatientChatPage.reachable_step "09:01" (PatientChatPage.Change "I'm okay, a bit tired.") s1);
      [| reflexivity].
    apply (PatientChatPage.reachable_step "09:00" PatientChatPage.Render PatientChatPage.initialState);
      [constructor | reflexivity]. }
  exact (proj2 (summary_has_no_patient_line s5 R eq_refl)).
Defined.

